(** * display7: a seven-segment display driver (src/display7.c)

    A shallow embedding of the driver's entry points -- [display7_setled],
    [digit_show], [digit_store], [display7_probe], [display7_remove] -- as
    computations over the driver's global variables, with the calls into
    the kernel recorded in a chronological log (all but the device-tree
    walk of [display7_probe]).  The kernel's answers to the calls that can
    fail are an explicit argument, so that every behaviour of the GPIO and
    device-model layers is covered by a quantifier. *)

From Stdlib Require Import ZArith List String Ascii Bool Lia.
Import ListNotations.
Open Scope Z_scope.

(** ** Machine integers and error pointers *)

(** [unsigned int] is 32 bits wide: an argument is converted on the call. *)
Definition uint (x : Z) : Z := x mod 2 ^ 32.

(** Width of [long], [size_t], [ssize_t] and of pointers.  The device-tree
    example of the source names Raspberry Pi header pins; the 32-bit ARM
    value is taken.  Statements below stay within [0, 2^31), where a wider
    [long] behaves the same. *)
Definition BITS_PER_LONG : Z := 32.

(** The conversion [size_t -> ssize_t] done by [return size;]. *)
Definition ssize_t_of_size_t (size : Z) : Z :=
  let s := size mod 2 ^ BITS_PER_LONG in
  if s <? 2 ^ (BITS_PER_LONG - 1) then s else s - 2 ^ BITS_PER_LONG.

(** Linux's <linux/err.h>: the last page of the address space encodes
    error numbers. *)
Definition MAX_ERRNO : Z := 4095.

Definition IS_ERR_VALUE (x : Z) : bool :=
  2 ^ BITS_PER_LONG - MAX_ERRNO <=? x mod 2 ^ BITS_PER_LONG.

Definition ENOMEM : Z := 12.
Definition EIO : Z := 5.
Definition EBUSY : Z := 16.

(** A kernel pointer as the driver sees it: null, an encoded error number,
    or a reference to an object. *)
Inductive kptr (A : Type) : Type :=
| NULL : kptr A
| ERR_PTR (errno : Z) : kptr A
| PTR (a : A) : kptr A.
Arguments NULL {A}.
Arguments ERR_PTR {A} errno.
Arguments PTR {A} a.

Definition IS_ERR {A : Type} (p : kptr A) : bool :=
  match p with
  | ERR_PTR e => IS_ERR_VALUE e
  | NULL | PTR _ => false
  end.

(** [PTR_ERR], and the cast [(int) ptr]; the driver applies them only
    to pointers for which [IS_ERR] holds. *)
Definition PTR_ERR {A : Type} (p : kptr A) : Z :=
  match p with
  | ERR_PTR e => e
  | NULL | PTR _ => 0
  end.

(** ** Driver data *)

Definition dev_t := Z.

(** Opaque references to [struct device] and [struct class] objects. *)
Definition handle := Z.

(** [struct gpio_descs]: the number of lines and the lines themselves. *)
Record gpio_descs : Type := mk_gpio_descs {
  ndescs : nat;
  desc : list Z
}.

Record display7_data_st : Type := mk_display7_data {
  devnum : dev_t;
  digit : ascii;
  descs : kptr gpio_descs
}.

Definition NUL : ascii := Ascii.zero.

(** What [devm_kzalloc] hands back: every field zero. *)
Definition zeroed_data : display7_data_st :=
  {| devnum := 0; digit := NUL; descs := NULL |}.

Definition DRIVER_NAME : string := "display7".
Definition SYSCLASS_NAME : string := "display7".
Definition DISPLAY_DEVICE_NAME : string := "user:1".

(** Segment codes for the digits 0 to F; bit order [dp g f e d c b a]. *)
Definition segment_table : list Z :=
  [ 0x3F; 0x06; 0x5B; 0x4F; 0x66; 0x6D; 0x7D; 0x07;
    0x7F; 0x6F; 0x77; 0x7C; 0x39; 0x5E; 0x79; 0x71 ].

(** ** Kernel calls *)

(** One entry per call the driver makes into the kernel, with the
    arguments that matter and the value the kernel returned. *)
Inductive event : Type :=
| Devm_kzalloc (ok : bool)
| Gpiod_get_array (con_id : string) (ret : kptr gpio_descs)
| Gpiod_set_array_value (array_size : nat) (value_bitmap : Z) (ret : Z)
| Alloc_chrdev_region (name : string) (ret : Z) (dev : dev_t)
| Class_create (name : string) (ret : kptr handle)
| Device_create (cls : kptr handle) (devt : dev_t) (name : string)
                (ret : kptr handle)
| Device_create_file (dev : kptr handle) (ret : Z)
| Device_remove_file (dev : kptr handle)
| Device_destroy (cls : kptr handle) (devt : dev_t)
| Class_destroy (cls : kptr handle)
| Unregister_chrdev_region (devt : dev_t)
| Gpiod_put_array (d : kptr gpio_descs)
| Dev_err (msg : string)
| Dev_info (msg : string).

(** The kernel's answers during one invocation of a driver entry point.
    Each entry point makes each of these calls at most once. *)
Record kernel : Type := mk_kernel {
  devm_kzalloc_ok : bool;
  gpiod_get_array_ret : kptr gpio_descs;
  alloc_chrdev_region_ret : Z;
  alloc_chrdev_region_dev : dev_t;
  class_create_ret : kptr handle;
  device_create_ret : kptr handle;
  device_create_file_ret : Z;
  gpiod_set_array_value_ret : Z
}.

(** The driver's file-scope variables, and the log of kernel calls. *)
Record world : Type := mk_world {
  display7_data : option display7_data_st;
  parent_device : option handle;
  display7_class : kptr handle;
  sysfs_display7_device : kptr handle;
  calls : list event
}.

(** Before the module is bound to a device. *)
Definition boot : world :=
  {| display7_data := None; parent_device := None;
     display7_class := NULL; sysfs_display7_device := NULL;
     calls := [] |}.

(** ** Computations

    A computation reads and updates the world and may fault (a null or
    invalid pointer dereference, an access outside an array). *)
Definition M (A : Type) : Type := world -> option (A * world).

Definition ret {A : Type} (a : A) : M A := fun w => Some (a, w).

Definition bind {A B : Type} (m : M A) (f : A -> M B) : M B :=
  fun w => match m w with
           | Some (a, w') => f a w'
           | None => None
           end.

Definition fault {A : Type} : M A := fun _ => None.

Notation "x <- m ;; f" := (bind m (fun x => f))
  (at level 61, m at next level, right associativity).
Notation "m ;; f" := (bind m (fun _ => f))
  (at level 61, right associativity).

Definition emit (e : event) : M unit :=
  fun w => Some (tt, {| display7_data := display7_data w;
                        parent_device := parent_device w;
                        display7_class := display7_class w;
                        sysfs_display7_device := sysfs_display7_device w;
                        calls := calls w ++ [e] |}).

Definition set_display7_data (p : option display7_data_st) : M unit :=
  fun w => Some (tt, {| display7_data := p;
                        parent_device := parent_device w;
                        display7_class := display7_class w;
                        sysfs_display7_device := sysfs_display7_device w;
                        calls := calls w |}).

Definition set_parent_device (p : option handle) : M unit :=
  fun w => Some (tt, {| display7_data := display7_data w;
                        parent_device := p;
                        display7_class := display7_class w;
                        sysfs_display7_device := sysfs_display7_device w;
                        calls := calls w |}).

Definition set_display7_class (p : kptr handle) : M unit :=
  fun w => Some (tt, {| display7_data := display7_data w;
                        parent_device := parent_device w;
                        display7_class := p;
                        sysfs_display7_device := sysfs_display7_device w;
                        calls := calls w |}).

Definition set_sysfs_display7_device (p : kptr handle) : M unit :=
  fun w => Some (tt, {| display7_data := display7_data w;
                        parent_device := parent_device w;
                        display7_class := display7_class w;
                        sysfs_display7_device := p;
                        calls := calls w |}).

Definition get_display7_class : M (kptr handle) :=
  fun w => Some (display7_class w, w).

Definition get_sysfs_display7_device : M (kptr handle) :=
  fun w => Some (sysfs_display7_device w, w).

(** [display7_data->...]: faults when [display7_data] is null. *)
Definition deref_data : M display7_data_st :=
  fun w => match display7_data w with
           | Some d => Some (d, w)
           | None => None
           end.

(** [p->...] for a pointer that must reference an object. *)
Definition deref {A : Type} (p : kptr A) : M A :=
  match p with
  | PTR a => ret a
  | NULL | ERR_PTR _ => fault
  end.

Definition store_digit (c : ascii) : M unit :=
  d <- deref_data ;;
  set_display7_data
    (Some {| devnum := devnum d; digit := c; descs := descs d |}).

Definition store_descs (p : kptr gpio_descs) : M unit :=
  d <- deref_data ;;
  set_display7_data
    (Some {| devnum := devnum d; digit := digit d; descs := p |}).

Definition store_devnum (n : dev_t) : M unit :=
  d <- deref_data ;;
  set_display7_data
    (Some {| devnum := n; digit := digit d; descs := descs d |}).

(** [table[i]] *)
Definition array_get (table : list Z) (i : Z) : M Z :=
  match nth_error table (Z.to_nat i) with
  | Some v => ret v
  | None => fault
  end.

(** [*buf] and [*buf = c] on a character buffer. *)
Definition load_first (buf : list ascii) : M ascii :=
  match buf with
  | c :: _ => ret c
  | [] => fault
  end.

Definition store_first (buf : list ascii) (c : ascii) : M (list ascii) :=
  match buf with
  | _ :: tl => ret (c :: tl)
  | [] => fault
  end.

(** Kernel entry points used by the driver. *)
Definition dev_err (msg : string) : M unit := emit (Dev_err msg).
Definition dev_info (msg : string) : M unit := emit (Dev_info msg).

Definition gpiod_set_array_value (k : kernel) (array_size : nat)
    (value_bitmap : Z) : M Z :=
  let r := gpiod_set_array_value_ret k in
  emit (Gpiod_set_array_value array_size value_bitmap r) ;; ret r.

Definition devm_kzalloc (k : kernel) : M (option display7_data_st) :=
  emit (Devm_kzalloc (devm_kzalloc_ok k)) ;;
  ret (if devm_kzalloc_ok k then Some zeroed_data else None).

Definition gpiod_get_array (k : kernel) (con_id : string)
    : M (kptr gpio_descs) :=
  emit (Gpiod_get_array con_id (gpiod_get_array_ret k)) ;;
  ret (gpiod_get_array_ret k).

(** Fills [display7_data->devnum] when it succeeds. *)
Definition alloc_chrdev_region (k : kernel) (name : string) : M Z :=
  let r := alloc_chrdev_region_ret k in
  emit (Alloc_chrdev_region name r (alloc_chrdev_region_dev k)) ;;
  (if r =? 0 then store_devnum (alloc_chrdev_region_dev k) else ret tt) ;;
  ret r.

Definition class_create (k : kernel) (name : string) : M (kptr handle) :=
  emit (Class_create name (class_create_ret k)) ;;
  ret (class_create_ret k).

Definition device_create (k : kernel) (cls : kptr handle) (devt : dev_t)
    (name : string) : M (kptr handle) :=
  emit (Device_create cls devt name (device_create_ret k)) ;;
  ret (device_create_ret k).

Definition device_create_file (k : kernel) (dev : kptr handle) : M Z :=
  emit (Device_create_file dev (device_create_file_ret k)) ;;
  ret (device_create_file_ret k).

Definition device_remove_file (dev : kptr handle) : M unit :=
  emit (Device_remove_file dev).
Definition device_destroy (cls : kptr handle) (devt : dev_t) : M unit :=
  emit (Device_destroy cls devt).
Definition class_destroy (cls : kptr handle) : M unit :=
  emit (Class_destroy cls).
Definition unregister_chrdev_region (devt : dev_t) : M unit :=
  emit (Unregister_chrdev_region devt).
Definition gpiod_put_array (d : kptr gpio_descs) : M unit :=
  emit (Gpiod_put_array d).

(** ** The driver *)

(** [display7_setled] (lines 110-128): the sanity check, the table
    lookup, one bulk write to the pin array, an error line when the kernel
    refuses it.  Nothing is returned. *)
Definition display7_setled (k : kernel) (digit : Z) : M unit :=
  let digit := uint digit in
  (* Sanity check *)
  if digit >? 15 then ret tt
  else
    digit_segments <- array_get segment_table digit ;;
    d <- deref_data ;;
    ds <- deref (descs d) ;;
    result <- gpiod_set_array_value k (ndescs ds) digit_segments ;;
    if IS_ERR_VALUE result
    then dev_err "Error setting a value in GPIOS: %d"
    else ret tt.

(** [digit_show] (lines 131-136): the recorded digit goes into the first
    byte of [buf], the page the attribute framework passes in; the value
    returned is 0. *)
Definition digit_show (buf : list ascii) : M (Z * list ascii) :=
  d <- deref_data ;;
  buf <- store_first buf (digit d) ;;
  ret (0, buf).

(** [digit_store] (lines 139-168): the switch on the first character,
    the unconditional record, the length as return value. *)
Definition digit_store (k : kernel) (buf : list ascii) (size : Z) : M Z :=
  digit <- load_first buf ;;
  (* Basic stupid conversion *)
  digit <- match digit with
           | "0"%char => display7_setled k 0 ;; ret digit
           | "1"%char => display7_setled k 1 ;; ret digit
           | "2"%char => display7_setled k 2 ;; ret digit
           | "3"%char => display7_setled k 3 ;; ret digit
           | "4"%char => display7_setled k 4 ;; ret digit
           | "5"%char => display7_setled k 5 ;; ret digit
           | "6"%char => display7_setled k 6 ;; ret digit
           | "7"%char => display7_setled k 7 ;; ret digit
           | "8"%char => display7_setled k 8 ;; ret digit
           | "9"%char => display7_setled k 9 ;; ret digit
           | "a"%char => display7_setled k 10 ;; ret digit
           | "b"%char => display7_setled k 11 ;; ret digit
           | "c"%char => display7_setled k 12 ;; ret digit
           | "d"%char => display7_setled k 13 ;; ret digit
           | "e"%char => display7_setled k 14 ;; ret digit
           | "f"%char => display7_setled k 15 ;; ret digit
           | _ => let digit := "8"%char in display7_setled k 8 ;; ret digit
           end ;;
  store_digit digit ;;
  ret (ssize_t_of_size_t size).

(** The unwind labels of [display7_probe], innermost first. *)
Definition ret_err_class_create (result : Z) : M Z :=
  d <- deref_data ;;
  unregister_chrdev_region (devnum d) ;;
  ret result.

Definition ret_err_create_device (result : Z) : M Z :=
  cls <- get_display7_class ;;
  class_destroy cls ;;
  ret_err_class_create result.

Definition ret_err_create_device_subfile (result : Z) : M Z :=
  cls <- get_display7_class ;;
  d <- deref_data ;;
  device_destroy cls (devnum d) ;;
  ret_err_create_device result.

(** [display7_probe] (lines 174-259).  The device-tree walk that picks
    the child node makes no call that can fail and is left out; what
    [gpiod_get_array] answers for that child is part of [k].  The walk
    ([of_get_next_child], line 191) takes a reference on the child node
    that the driver never puts back: node references are outside the log
    and outside the resources counted below. *)
Definition display7_probe (k : kernel) (pdev : handle) : M Z :=
  set_parent_device (Some pdev) ;;
  p <- devm_kzalloc k ;;
  set_display7_data p ;;
  match p with
  | None => ret (- ENOMEM)
  | Some _ =>
    (* the pins come back as outputs driven low *)
    g <- gpiod_get_array k "disp1" ;;
    store_descs g ;;
    if IS_ERR g then
      dev_err "Error getting array og GPIOS: %d" ;;
      ret (PTR_ERR g)
    else
      result <- alloc_chrdev_region k DRIVER_NAME ;;
      if negb (result =? 0) then
        dev_err "Failed to allocate device number" ;;
        ret result                       (* ret_err_alloc_chrdev_region *)
      else
        cls <- class_create k SYSCLASS_NAME ;;
        set_display7_class cls ;;
        if IS_ERR cls then
          ret_err_class_create (PTR_ERR cls)
        else
          d <- deref_data ;;
          dev <- device_create k cls (devnum d) DISPLAY_DEVICE_NAME ;;
          set_sysfs_display7_device dev ;;
          if IS_ERR dev then
            dev_err "Failed to create a device file!" ;;
            ret_err_create_device (PTR_ERR dev)
          else
            result <- device_create_file k dev ;;
            if IS_ERR_VALUE result then
              dev_err "Failed to create a device sub-file!" ;;
              ret_err_create_device_subfile result
            else
              dev_info "Driver initialized." ;;
              ret result                 (* ret_ok *)
  end.

(** [display7_remove] (lines 261-270). *)
Definition display7_remove (pdev : handle) : M Z :=
  dev <- get_sysfs_display7_device ;;
  device_remove_file dev ;;
  cls <- get_display7_class ;;
  d <- deref_data ;;
  device_destroy cls (devnum d) ;;
  class_destroy cls ;;
  unregister_chrdev_region (devnum d) ;;
  gpiod_put_array (descs d) ;;
  dev_info "Driver unloaded!" ;;
  ret 0.

(** ** Reading the log *)

(** [w] after the kernel calls [es]. *)
Definition log (es : list event) (w : world) : world :=
  {| display7_data := display7_data w;
     parent_device := parent_device w;
     display7_class := display7_class w;
     sysfs_display7_device := sysfs_display7_device w;
     calls := calls w ++ es |}.

(** [w] after [display7_data->digit = c]. *)
Definition record_digit (c : ascii) (w : world) : world :=
  match display7_data w with
  | Some d =>
      {| display7_data :=
           Some {| devnum := devnum d; digit := c; descs := descs d |};
         parent_device := parent_device w;
         display7_class := display7_class w;
         sysfs_display7_device := sysfs_display7_device w;
         calls := calls w |}
  | None => w
  end.

(** The digit an instance has on record, if the instance exists. *)
Definition recorded_digit (w : world) : option ascii :=
  match display7_data w with
  | Some d => Some (digit d)
  | None => None
  end.

(** The pin array of an attached instance. *)
Definition pins (w : world) : option gpio_descs :=
  match display7_data w with
  | Some d => match descs d with
              | PTR ds => Some ds
              | NULL | ERR_PTR _ => None
              end
  | None => None
  end.

(** The instance exists and owns a pin array. *)
Definition attached (w : world) : bool :=
  match pins w with
  | Some _ => true
  | None => false
  end.

(** The kernel calls of one bulk write of [bitmap] to [n] pins. *)
Definition setled_calls (k : kernel) (n : nat) (bitmap : Z) : list event :=
  Gpiod_set_array_value n bitmap (gpiod_set_array_value_ret k)
  :: (if IS_ERR_VALUE (gpiod_set_array_value_ret k)
      then [Dev_err "Error setting a value in GPIOS: %d"]
      else []).

(** Resources an instance holds in the kernel.  The memory from
    [devm_kzalloc] is managed by the device core and not listed, nor is
    the device-tree node reference taken by [of_get_next_child]. *)
Inductive resource : Type :=
| Gpio_lines | Chrdev_region | Sysfs_class | Sysfs_device | Attr_file.

Definition resource_eq_dec (a b : resource) : {a = b} + {a <> b}.
Proof. decide equality. Defined.

Definition acquired (e : event) : option resource :=
  match e with
  | Gpiod_get_array _ (PTR _) => Some Gpio_lines
  | Alloc_chrdev_region _ r _ => if r =? 0 then Some Chrdev_region else None
  | Class_create _ (PTR _) => Some Sysfs_class
  | Device_create _ _ _ (PTR _) => Some Sysfs_device
  | Device_create_file _ r => if r =? 0 then Some Attr_file else None
  | _ => None
  end.

Definition released (e : event) : option resource :=
  match e with
  | Device_remove_file _ => Some Attr_file
  | Device_destroy _ _ => Some Sysfs_device
  | Class_destroy _ => Some Sysfs_class
  | Unregister_chrdev_region _ => Some Chrdev_region
  | Gpiod_put_array _ => Some Gpio_lines
  | _ => None
  end.

Definition account (held : list resource) (e : event) : list resource :=
  match released e with
  | Some r => remove resource_eq_dec r held
  | None => match acquired e with
            | Some r => held ++ [r]
            | None => held
            end
  end.

(** The resources still held after the calls [tr]. *)
Definition claimed (tr : list event) : list resource :=
  fold_left account tr [].

(** The pattern of the last bulk write the kernel accepted. *)
Fixpoint last_driven (tr : list event) : option Z :=
  match tr with
  | [] => None
  | e :: tr' =>
      match last_driven tr' with
      | Some m => Some m
      | None => match e with
                | Gpiod_set_array_value _ m r =>
                    if IS_ERR_VALUE r then None else Some m
                | _ => None
                end
      end
  end.

(** What the reader of a sysfs attribute receives: [show] returns the
    number of bytes of the page it filled, a negative value is an error. *)
Definition attribute_read (r : Z * list ascii) : list ascii :=
  firstn (Z.to_nat (fst r)) (snd r).

(** ** The vocabulary of the specification *)

Definition code (c : ascii) : Z := Z.of_nat (nat_of_ascii c).

(** The accepted alphabet [0-9], [a-f]. *)
Definition hex_lower (c : ascii) : bool :=
  ((48 <=? code c) && (code c <=? 57)) || ((97 <=? code c) && (code c <=? 102)).

(** The upper-case hex letters [A-F]. *)
Definition hex_upper (c : ascii) : bool :=
  (65 <=? code c) && (code c <=? 70).

(** The digit value of a character: its hex value inside the alphabet,
    8 outside. *)
Definition digit_value (c : ascii) : Z :=
  if (48 <=? code c) && (code c <=? 57) then code c - 48
  else if (97 <=? code c) && (code c <=? 102) then code c - 87
  else 8.

(** The character put on record by a write of [c]. *)
Definition record_of (c : ascii) : ascii :=
  if hex_lower c then c else "8"%char.

(** The pattern driven by a write of [c]. *)
Definition segment_of (c : ascii) : Z :=
  nth (Z.to_nat (digit_value c)) segment_table 0.

(** The lower-case form of an upper-case letter. *)
Definition lower_of (c : ascii) : ascii :=
  ascii_of_nat (nat_of_ascii c + 32).

(** The character that stands for a digit value. *)
Definition hex_char (d : Z) : option ascii :=
  nth_error (list_ascii_of_string "0123456789abcdef") (Z.to_nat d).

(** The table of section 4.1 of the specification. *)
Definition spec_bitmask (d : Z) : option Z :=
  match d with
  | 0 => Some 0x3F | 1 => Some 0x06 | 2 => Some 0x5B | 3 => Some 0x4F
  | 4 => Some 0x66 | 5 => Some 0x6D | 6 => Some 0x7D | 7 => Some 0x07
  | 8 => Some 0x7F | 9 => Some 0x6F | 10 => Some 0x77 | 11 => Some 0x7C
  | 12 => Some 0x39 | 13 => Some 0x5E | 14 => Some 0x79 | 15 => Some 0x71
  | _ => None
  end.

(** The digit whose pattern was last driven with success. *)
Definition last_shown (tr : list event) : option Z :=
  match last_driven tr with
  | Some m =>
      option_map (fun i => Z.of_nat i)
        (find (fun i => match nth_error segment_table i with
                        | Some m' => m' =? m
                        | None => false
                        end) (seq 0 16))
  | None => None
  end.

(** How a C return value tells its caller about a failure: a function
    returning [void] cannot; an [int] or [ssize_t] does by being negative. *)
Class Status (A : Type) : Type := errno_of : A -> option Z.

#[global] Instance Status_void : Status unit := fun _ => None.
#[global] Instance Status_int : Status Z :=
  fun r => if r <? 0 then Some (- r) else None.

(** [digit_show] hands back its return value together with the page. *)
#[global] Instance Status_show : Status (Z * list ascii) :=
  fun r => errno_of (fst r).

(** The outcome of a call reports an error to the caller. *)
Definition reports_error {A : Type} `{Status A} (o : option (A * world))
    : Prop :=
  exists a w e, o = Some (a, w) /\ errno_of a = Some e.

(** ** Sample environments *)

(** The wiring of the device-tree example in the source header. *)
Definition disp1 : gpio_descs :=
  {| ndescs := 8; desc := [15; 14; 8; 25; 24; 18; 23; 7] |}.

(** Every kernel call succeeds. *)
Definition k_ok : kernel :=
  {| devm_kzalloc_ok := true;
     gpiod_get_array_ret := PTR disp1;
     alloc_chrdev_region_ret := 0;
     alloc_chrdev_region_dev := 240 * 2 ^ 20;
     class_create_ret := PTR 1;
     device_create_ret := PTR 2;
     device_create_file_ret := 0;
     gpiod_set_array_value_ret := 0 |}.

(** The bulk GPIO write fails with [-EIO]. *)
Definition k_eio : kernel :=
  {| devm_kzalloc_ok := true;
     gpiod_get_array_ret := PTR disp1;
     alloc_chrdev_region_ret := 0;
     alloc_chrdev_region_dev := 240 * 2 ^ 20;
     class_create_ret := PTR 1;
     device_create_ret := PTR 2;
     device_create_file_ret := 0;
     gpiod_set_array_value_ret := - EIO |}.

(** The pins are acquired, then no device number is available. *)
Definition k_busy : kernel :=
  {| devm_kzalloc_ok := true;
     gpiod_get_array_ret := PTR disp1;
     alloc_chrdev_region_ret := - EBUSY;
     alloc_chrdev_region_dev := 0;
     class_create_ret := PTR 1;
     device_create_ret := PTR 2;
     device_create_file_ret := 0;
     gpiod_set_array_value_ret := 0 |}.

(** The world an entry point leaves behind (unchanged if it faulted). *)
Definition after {A : Type} (m : M A) (w : world) : world :=
  match m w with
  | Some (_, w') => w'
  | None => w
  end.

(** A freshly attached instance. *)
Definition w_attached : world := after (display7_probe k_ok 0) boot.

(** A 4-byte page standing for the attribute buffer. *)
Definition page : list ascii := [NUL; NUL; NUL; NUL].

(** An instance showing 3. *)
Definition w_shown3 : world :=
  after (digit_store k_ok ["3"%char] 1) w_attached.

(** The same instance after a write of 5 whose bulk write failed. *)
Definition w_failed5 : world :=
  after (digit_store k_eio ["5"%char] 1) w_shown3.

(** An instance after a write of 5 that went through. *)
Definition w_shown5 : world :=
  after (digit_store k_ok ["5"%char] 1) w_attached.

(** A write request: the kernel's answers while it runs, the first
    character of the payload, the remaining characters, the length. *)
Record write_req : Type := mk_write_req {
  wr_kernel : kernel;
  wr_first : ascii;
  wr_rest : list ascii;
  wr_size : Z
}.

(** A sequence of writes to the attribute, oldest first. *)
Fixpoint writes (ws : list write_req) : M unit :=
  match ws with
  | [] => ret tt
  | r :: ws' =>
      digit_store (wr_kernel r) (wr_first r :: wr_rest r) (wr_size r) ;;
      writes ws'
  end.

(** The character on record after the writes [ws], starting from [c0]. *)
Definition last_record (c0 : ascii) (ws : list write_req) : ascii :=
  fold_left (fun _ r => record_of (wr_first r)) ws c0.

(** ** Statements of the specification, as propositions *)

(** Section 4.3, step 2: a failed bulk write is propagated and the record
    is left as it was. *)
Definition record_only_on_success (k : kernel) (w : world)
    (buf : list ascii) (size : Z) : Prop :=
  IS_ERR_VALUE (gpiod_set_array_value_ret k) = true ->
  forall r w', digit_store k buf size w = Some (r, w') ->
    reports_error (Some (r, w')) /\ recorded_digit w' = recorded_digit w.

(** Section 4.1: a digit value beyond 15 fails with an error the caller
    is told about. *)
Definition out_of_range_reported (k : kernel) (w : world) (v : Z) : Prop :=
  15 < uint v -> reports_error (display7_setled k v w).

(** Section 4.4: what is read stands for the last digit shown with
    success. *)
Definition read_is_last_shown (w : world) (buf : list ascii) : Prop :=
  forall r buf' w', digit_show buf w = Some ((r, buf'), w') ->
    exists d c, last_shown (calls w) = Some d /\ hex_char d = Some c /\
                hd_error buf' = Some c.

(** Section 4.5: an attach that fails leaves nothing claimed. *)
Definition attach_all_or_nothing (k : kernel) (pdev : handle) (w : world)
    : Prop :=
  forall r w', display7_probe k pdev w = Some (r, w') ->
    r <> 0 -> claimed (calls w') = [].

(** Section 8, round trip: what was written is what the reader of the
    attribute receives. *)
Definition round_trip (k : kernel) (w : world) (c : ascii)
    (buf : list ascii) : Prop :=
  forall n w', digit_store k [c] 1 w = Some (n, w') ->
    exists out w'', digit_show buf w' = Some (out, w'') /\
                    attribute_read out = [c].

(** [a] occurs in [l] before [b]. *)
Definition occurs_before {A : Type} (a b : A) (l : list A) : Prop :=
  exists l1 l2 l3, l = l1 ++ a :: l2 ++ b :: l3.

(** [e] releases a resource and no call after it in [l] does. *)
Definition last_release (e : event) (l : list event) : Prop :=
  exists l1 l2, l = l1 ++ e :: l2 /\ released e <> None /\
                Forall (fun x => released x = None) l2.

(** ** The kernel's side of the interface *)

(** An error number as the kernel returns it: [-MAX_ERRNO .. -1]. *)
Definition errno_range (e : Z) : bool := (- MAX_ERRNO <=? e) && (e <? 0).

Definition is_ptr {A : Type} (p : kptr A) : bool :=
  match p with
  | PTR _ => true
  | NULL | ERR_PTR _ => false
  end.

(** A pointer-returning call gives an object or an encoded error number;
    an [int]-returning call gives 0 or an error number. *)
Definition sane_ptr {A : Type} (p : kptr A) : bool :=
  match p with
  | PTR _ => true
  | ERR_PTR e => errno_range e
  | NULL => false
  end.

Definition sane_int (r : Z) : bool := (r =? 0) || errno_range r.

(** The kernel keeps to these conventions in all its answers. *)
Definition kernel_sane (k : kernel) : bool :=
  sane_ptr (gpiod_get_array_ret k)
  && sane_int (alloc_chrdev_region_ret k)
  && sane_ptr (class_create_ret k)
  && sane_ptr (device_create_ret k)
  && sane_int (device_create_file_ret k)
  && sane_int (gpiod_set_array_value_ret k).

(** Every call of an attach succeeds. *)
Definition all_ok (k : kernel) : bool :=
  devm_kzalloc_ok k
  && is_ptr (gpiod_get_array_ret k)
  && (alloc_chrdev_region_ret k =? 0)
  && is_ptr (class_create_ret k)
  && is_ptr (device_create_ret k)
  && (device_create_file_ret k =? 0).

(** The resources acquired, and those released, by the calls [tr], in
    the order of the calls. *)
Definition acquisitions (tr : list event) : list resource :=
  flat_map (fun e => match acquired e with
                     | Some r => [r]
                     | None => []
                     end) tr.

Definition releases (tr : list event) : list resource :=
  flat_map (fun e => match released e with
                     | Some r => [r]
                     | None => []
                     end) tr.

(** The patterns of the bulk writes among the calls [tr], oldest first. *)
Definition bulk_writes (tr : list event) : list Z :=
  flat_map (fun e => match e with
                     | Gpiod_set_array_value _ m _ => [m]
                     | _ => []
                     end) tr.

(** The resources [display7_probe] acquires by the calls from
    [gpiod_get_array] on, and [display7_remove] gives back. *)
Definition driver_resources : list resource :=
  [Gpio_lines; Chrdev_region; Sysfs_class; Sysfs_device; Attr_file].

(** The world a run of [display7_probe] leaves: the instance data, the
    handles, and the calls made. *)
Definition probed (w : world) (pdev : handle) (d : option display7_data_st)
    (cls dev : kptr handle) (es : list event) : world :=
  {| display7_data := d; parent_device := Some pdev;
     display7_class := cls; sysfs_display7_device := dev;
     calls := calls w ++ es |}.

(** The calls of one write request on [n] pins. *)
Definition write_calls (n : nat) (r : write_req) : list event :=
  setled_calls (wr_kernel r) n (segment_of (wr_first r)).

(** The device is created, then the attribute file is refused. *)
Definition k_nofile : kernel :=
  {| devm_kzalloc_ok := true;
     gpiod_get_array_ret := PTR disp1;
     alloc_chrdev_region_ret := 0;
     alloc_chrdev_region_dev := 240 * 2 ^ 20;
     class_create_ret := PTR 1;
     device_create_ret := PTR 2;
     device_create_file_ret := - ENOMEM;
     gpiod_set_array_value_ret := 0 |}.

(** An instance written to, then detached: what a later attach finds. *)
Definition w_detached : world := after (display7_remove 0) w_failed5.

(** ** Proof automation *)

Ltac probe_step H :=
  cbv beta iota delta
    [display7_data parent_device display7_class sysfs_display7_device calls
     devnum digit descs devm_kzalloc_ok gpiod_get_array_ret
     alloc_chrdev_region_ret alloc_chrdev_region_dev class_create_ret
     device_create_ret device_create_file_ret IS_ERR PTR_ERR zeroed_data]
    in H.

(** Splits a run of [display7_probe] into its control-flow paths. *)
Ltac probe_paths H :=
  unfold display7_probe, bind, ret, set_parent_device, devm_kzalloc, emit,
    set_display7_data, gpiod_get_array, store_descs, deref_data,
    alloc_chrdev_region, store_devnum, class_create, set_display7_class,
    ret_err_class_create, unregister_chrdev_region, device_create,
    set_sysfs_display7_device, ret_err_create_device, get_display7_class,
    class_destroy, device_create_file, ret_err_create_device_subfile,
    device_destroy, dev_err, dev_info, bind, ret, emit, deref_data,
    set_display7_data in H;
  probe_step H;
  repeat match type of H with
         | context [match ?p with
                    | NULL => _ | ERR_PTR _ => _ | PTR _ => _ end] =>
             let E := fresh "E" in destruct p eqn:E; probe_step H
         | context [if ?b then _ else _] =>
             let E := fresh "E" in destruct b eqn:E; probe_step H
         end.

(** Runs [display7_probe] forward on a kernel given field by field. *)
Ltac probe_run :=
  unfold display7_probe, ret_err_create_device_subfile,
    ret_err_create_device, ret_err_class_create, set_parent_device,
    devm_kzalloc, gpiod_get_array, store_descs, alloc_chrdev_region,
    store_devnum, class_create, set_display7_class,
    unregister_chrdev_region, device_create, set_sysfs_display7_device,
    get_display7_class, class_destroy, device_create_file, device_destroy,
    dev_err, dev_info, bind, ret, emit, deref_data, set_display7_data,
    probed;
  cbv beta iota delta
    [display7_data parent_device display7_class sysfs_display7_device calls
     devnum digit descs devm_kzalloc_ok gpiod_get_array_ret
     alloc_chrdev_region_ret alloc_chrdev_region_dev class_create_ret
     device_create_ret device_create_file_ret zeroed_data].

Ltac probe_done :=
  repeat rewrite <- app_assoc; reflexivity.

(** ** Basic facts *)

Lemma log_nil (w : world) : log [] w = w.
Proof. destruct w; unfold log; simpl; now rewrite app_nil_r. Qed.

Lemma log_log (a b : list event) (w : world) :
  log b (log a w) = log (a ++ b) w.
Proof. unfold log; simpl; now rewrite app_assoc. Qed.

Lemma emit_log (e : event) (w : world) : emit e w = Some (tt, log [e] w).
Proof. reflexivity. Qed.

Lemma pins_data (w : world) (ds : gpio_descs) :
  pins w = Some ds ->
  exists d, display7_data w = Some d /\ descs d = PTR ds.
Proof.
  unfold pins; destruct (display7_data w) as [d|]; [|discriminate].
  destruct (descs d) eqn:E; try discriminate.
  intros [= ->]; now exists d.
Qed.

Lemma attached_pins (w : world) :
  attached w = true -> exists ds, pins w = Some ds.
Proof.
  unfold attached; destruct (pins w) as [ds|]; [|discriminate].
  now exists ds.
Qed.

Lemma pins_log (es : list event) (w : world) : pins (log es w) = pins w.
Proof. reflexivity. Qed.

Lemma pins_record_digit (c : ascii) (w : world) :
  pins (record_digit c w) = pins w.
Proof.
  unfold record_digit, pins.
  destruct (display7_data w) as [d|] eqn:E; simpl; [reflexivity|].
  now rewrite E.
Qed.

Lemma recorded_digit_record (c : ascii) (w : world) :
  display7_data w <> None -> recorded_digit (record_digit c w) = Some c.
Proof.
  unfold record_digit, recorded_digit.
  destruct (display7_data w) as [d|] eqn:E; [reflexivity | congruence].
Qed.

Lemma calls_record_digit (c : ascii) (w : world) :
  calls (record_digit c w) = calls w.
Proof. unfold record_digit; now destruct (display7_data w). Qed.

(** An [int] error code is exactly a value in [-MAX_ERRNO, -1]. *)
Lemma IS_ERR_VALUE_int (r : Z) :
  - 2 ^ 31 <= r < 2 ^ 31 ->
  IS_ERR_VALUE r = true <-> - MAX_ERRNO <= r < 0.
Proof.
  intros Hr; unfold IS_ERR_VALUE, BITS_PER_LONG, MAX_ERRNO.
  rewrite Z.leb_le.
  destruct (Z_lt_le_dec r 0) as [Hn|Hp].
  - replace (r mod 2 ^ 32) with (r + 2 ^ 32).
    + lia.
    + apply Z.mod_unique with (q := -1); lia.
  - rewrite Z.mod_small by lia. lia.
Qed.

Lemma ssize_t_of_size_t_small (size : Z) :
  0 <= size < 2 ^ 31 -> ssize_t_of_size_t size = size.
Proof.
  intros H; unfold ssize_t_of_size_t, BITS_PER_LONG.
  rewrite Z.mod_small by lia.
  destruct (Z.ltb_spec size (2 ^ (32 - 1))) as [_|Hge]; [reflexivity|].
  change (2 ^ (32 - 1)) with (2 ^ 31) in Hge; lia.
Qed.

(** The sanity check: beyond 15 nothing is looked up, driven or logged. *)
Lemma display7_setled_rejects (k : kernel) (v : Z) (w : world) :
  15 < uint v -> display7_setled k v w = Some (tt, w).
Proof.
  intros H; unfold display7_setled.
  destruct (Z.gtb_spec (uint v) 15) as [_|Hle]; [reflexivity | lia].
Qed.

(** Within the table: one bulk write of the table entry, and an error
    line when the kernel refuses it. *)
Lemma display7_setled_drives (k : kernel) (v m : Z) (w : world)
    (ds : gpio_descs) :
  pins w = Some ds ->
  uint v <= 15 ->
  nth_error segment_table (Z.to_nat (uint v)) = Some m ->
  display7_setled k v w = Some (tt, log (setled_calls k (ndescs ds) m) w).
Proof.
  intros Hp Hv Hm.
  destruct (pins_data w ds Hp) as (d & Hd & Hds).
  unfold display7_setled.
  destruct (Z.gtb_spec (uint v) 15) as [Hgt|_]; [lia|].
  unfold bind at 1, array_get; rewrite Hm; unfold ret at 1.
  unfold bind at 1, deref_data; rewrite Hd.
  unfold bind at 1; rewrite Hds; unfold deref, ret at 1.
  unfold bind at 1, gpiod_set_array_value, bind at 1.
  rewrite emit_log; unfold ret at 1, setled_calls.
  destruct (IS_ERR_VALUE (gpiod_set_array_value_ret k)).
  - unfold dev_err; rewrite emit_log, log_log; reflexivity.
  - reflexivity.
Qed.

(** The table has an entry for every value the check lets through. *)
Lemma segment_table_spec (v : Z) :
  0 <= v -> nth_error segment_table (Z.to_nat v) = spec_bitmask v.
Proof.
  intros Hv.
  destruct (Z_le_gt_dec v 15) as [Hle|Hgt].
  - assert (H : v = 0 \/ v = 1 \/ v = 2 \/ v = 3 \/ v = 4 \/ v = 5 \/ v = 6
                \/ v = 7 \/ v = 8 \/ v = 9 \/ v = 10 \/ v = 11 \/ v = 12
                \/ v = 13 \/ v = 14 \/ v = 15) by lia.
    repeat (destruct H as [-> | H]; [reflexivity|]); subst; reflexivity.
  - assert (Hn : nth_error segment_table (Z.to_nat v) = None).
    { apply nth_error_None; simpl; lia. }
    rewrite Hn; destruct v as [|p|p]; try lia.
    do 4 (destruct p as [p|p|]; try reflexivity; try lia).
Qed.

Lemma uint_small (v : Z) : 0 <= v < 2 ^ 32 -> uint v = v.
Proof. intros H; unfold uint; now apply Z.mod_small. Qed.

(** The switch of [digit_store], read as a table from characters to the
    digit value shown and the character put on record. *)
Lemma digit_store_switch (k : kernel) (c : ascii) (rest : list ascii)
    (size : Z) (w : world) :
  digit_store k (c :: rest) size w =
  (display7_setled k (digit_value c) ;;
   store_digit (record_of c) ;;
   ret (ssize_t_of_size_t size)) w.
Proof.
  unfold digit_store, load_first.
  destruct c as [[] [] [] [] [] [] [] []];
    unfold bind at 1, ret at 1;
    match goal with
    | |- _ = bind (display7_setled k (digit_value ?c)) _ w =>
        let v := eval vm_compute in (digit_value c) in
        let r := eval vm_compute in (record_of c) in
        change (digit_value c) with v; change (record_of c) with r
    end;
    unfold bind;
    match goal with
    | |- context [display7_setled k ?v w] =>
        destruct (display7_setled k v w) as [[[] w']|]
    end; reflexivity.
Qed.

Lemma digit_value_range (c : ascii) : 0 <= digit_value c <= 15.
Proof.
  unfold digit_value.
  destruct (Z.leb_spec 48 (code c)), (Z.leb_spec (code c) 57),
           (Z.leb_spec 97 (code c)), (Z.leb_spec (code c) 102);
    simpl; lia.
Qed.

Lemma segment_of_lookup (c : ascii) :
  nth_error segment_table (Z.to_nat (uint (digit_value c)))
  = Some (segment_of c).
Proof.
  pose proof (digit_value_range c) as H.
  rewrite uint_small by lia.
  apply nth_error_nth'; simpl; lia.
Qed.

Lemma segment_of_spec (c : ascii) :
  spec_bitmask (digit_value c) = Some (segment_of c).
Proof.
  pose proof (digit_value_range c) as H.
  rewrite <- segment_table_spec by lia.
  rewrite <- (uint_small (digit_value c)) at 1 by lia.
  apply segment_of_lookup.
Qed.

(** A write on an attached instance: one bulk write of the pattern of the
    first character, the record, the size. *)
Lemma digit_store_attached (k : kernel) (c : ascii) (rest : list ascii)
    (size : Z) (w : world) (ds : gpio_descs) :
  pins w = Some ds ->
  digit_store k (c :: rest) size w =
  Some (ssize_t_of_size_t size,
        record_digit (record_of c)
          (log (setled_calls k (ndescs ds) (segment_of c)) w)).
Proof.
  intros Hp.
  pose proof (digit_value_range c) as Hr.
  rewrite digit_store_switch; unfold bind at 1.
  rewrite (display7_setled_drives k _ (segment_of c) w ds Hp);
    [| rewrite uint_small; lia | apply segment_of_lookup].
  destruct (pins_data w ds Hp) as (d & Hd & _).
  unfold bind, store_digit, bind, deref_data, record_digit; simpl.
  rewrite Hd; reflexivity.
Qed.

Lemma hex_upper_not_lower (c : ascii) :
  hex_upper c = true -> hex_lower c = false.
Proof.
  unfold hex_upper, hex_lower.
  destruct (Z.leb_spec 65 (code c)), (Z.leb_spec (code c) 70),
           (Z.leb_spec 48 (code c)), (Z.leb_spec (code c) 57),
           (Z.leb_spec 97 (code c)), (Z.leb_spec (code c) 102);
    simpl; intros; try reflexivity; try discriminate; lia.
Qed.

Lemma fallback_value (c : ascii) :
  hex_lower c = false ->
  digit_value c = 8 /\ record_of c = "8"%char /\ segment_of c = 0x7F.
Proof.
  intros H.
  assert (Hv : digit_value c = 8).
  { revert H; unfold hex_lower, digit_value.
    destruct ((48 <=? code c) && (code c <=? 57)); [discriminate|].
    destruct ((97 <=? code c) && (code c <=? 102)); [discriminate|].
    reflexivity. }
  unfold record_of, segment_of; rewrite H, Hv; auto.
Qed.

Lemma reports_error_ssize (r : Z) (w : world) :
  0 <= r -> ~ reports_error (Some (r, w)).
Proof.
  intros Hr (a & w' & e & Heq & He).
  injection Heq as <- _.
  unfold errno_of, Status_int in He.
  destruct (Z.ltb_spec r 0); [lia | discriminate].
Qed.

(** ** The segment table and the display engine *)

(** C2.  For a digit value [v] of type [unsigned int]: the table entry at
    [v] is the constant of section 4.1 for [v] in [0,15] (0x3F, 0x06, 0x5B,
    0x4F, 0x66, 0x6D, 0x7D, 0x07, 0x7F, 0x6F, 0x77, 0x7C, 0x39, 0x5E, 0x79,
    0x71) and the table has no entry for any other value; [display7_setled]
    drives exactly that constant for [v] in [0,15] and consults nothing
    otherwise. *)
Theorem segment_table_lookup (k : kernel) (w : world) (ds : gpio_descs)
    (v : Z) :
  pins w = Some ds ->
  0 <= v < 2 ^ 32 ->
  nth_error segment_table (Z.to_nat v) = spec_bitmask v /\
  (spec_bitmask v <> None <-> v <= 15) /\
  display7_setled k v w =
    Some (tt, match spec_bitmask v with
              | Some m => log (setled_calls k (ndescs ds) m) w
              | None => w
              end).
Proof.
  intros Hp Hv.
  pose proof (segment_table_spec v (proj1 Hv)) as Ht.
  assert (Hdom : spec_bitmask v <> None <-> v <= 15).
  { rewrite <- Ht; rewrite nth_error_Some; simpl; lia. }
  repeat split; try apply Hdom; auto.
  destruct (spec_bitmask v) as [m|] eqn:Hs.
  - assert (Hle : v <= 15) by (apply Hdom; congruence).
    apply display7_setled_drives; rewrite ?uint_small; auto.
  - assert (Hgt : ~ v <= 15) by (intros H; apply Hdom in H; congruence).
    apply display7_setled_rejects; rewrite uint_small; lia.
Qed.

Lemma segment_table_lookup_witness :
  pins w_attached = Some disp1 /\ 0 <= 11 < 2 ^ 32 /\
  (nth_error segment_table (Z.to_nat 11) = spec_bitmask 11 /\
   (spec_bitmask 11 <> None <-> 11 <= 15) /\
   display7_setled k_ok 11 w_attached =
     Some (tt, match spec_bitmask 11 with
               | Some m => log (setled_calls k_ok (ndescs disp1) m) w_attached
               | None => w_attached
               end)).
Proof.
  assert (Hp : pins w_attached = Some disp1) by reflexivity.
  assert (Hv : 0 <= 11 < 2 ^ 32) by lia.
  exact (conj Hp (conj Hv (segment_table_lookup k_ok w_attached disp1 11
                             Hp Hv))).
Defined.

(** C3, counterexample.  [display7_setled(16)] returns nothing to its
    caller: no error is reported. *)
Lemma setled_16_not_reported :
  ~ out_of_range_reported k_ok w_attached 16.
Proof.
  intros H.
  destruct (H ltac:(vm_compute; reflexivity)) as (a & w & e & _ & He).
  discriminate He.
Qed.

(** C3, amended.  A digit value beyond 15 makes [display7_setled] return at
    its sanity check: no kernel call is made (the pins are not touched, no
    message is logged), every variable of the driver -- the recorded digit
    among them -- keeps its value, and the [void] return tells the caller
    nothing. *)
Theorem display7_setled_out_of_range (k : kernel) (w : world) (v : Z) :
  15 < uint v ->
  display7_setled k v w = Some (tt, w) /\
  ~ reports_error (display7_setled k v w).
Proof.
  intros H; split.
  - now apply display7_setled_rejects.
  - intros (a & w' & e & _ & He); discriminate He.
Qed.

Lemma display7_setled_out_of_range_witness :
  15 < uint 16 /\
  (display7_setled k_ok 16 w_shown3 = Some (tt, w_shown3) /\
   ~ reports_error (display7_setled k_ok 16 w_shown3)).
Proof.
  assert (H : 15 < uint 16) by (vm_compute; reflexivity).
  exact (conj H (display7_setled_out_of_range k_ok w_shown3 16 H)).
Defined.

(** ** The write path *)

(** C1, counterexample.  The instance shows 3; a write of 5 meets a bulk
    write failing with -EIO: the write returns 1 and 5 is on record. *)
Lemma failed_write_is_recorded :
  ~ record_only_on_success k_eio w_shown3 ["5"%char] 1.
Proof.
  intros H.
  destruct (H eq_refl _ _ eq_refl) as [_ Hd].
  vm_compute in Hd; discriminate Hd.
Qed.

(** C1, amended.  When the bulk write fails, [display7_setled] logs the
    failure and returns; the write still puts the character on record
    (the written character inside the alphabet, 8 outside) and returns the
    input length, so no error reaches the caller. *)
Theorem digit_store_records_on_fault (k : kernel) (w : world) (c : ascii)
    (rest : list ascii) (size : Z) :
  attached w = true ->
  IS_ERR_VALUE (gpiod_set_array_value_ret k) = true ->
  0 <= size < 2 ^ 31 ->
  exists w' n,
    digit_store k (c :: rest) size w = Some (size, w') /\
    recorded_digit w' = Some (record_of c) /\
    calls w' = calls w ++
      [Gpiod_set_array_value n (segment_of c) (gpiod_set_array_value_ret k);
       Dev_err "Error setting a value in GPIOS: %d"] /\
    ~ reports_error (digit_store k (c :: rest) size w).
Proof.
  intros Ha He Hs.
  destruct (attached_pins w Ha) as (ds & Hp).
  destruct (pins_data w ds Hp) as (d & Hd & _).
  pose proof (digit_store_attached k c rest size w ds Hp) as E.
  rewrite ssize_t_of_size_t_small in E by exact Hs.
  eexists; exists (ndescs ds); repeat split.
  - exact E.
  - apply recorded_digit_record; simpl; congruence.
  - rewrite calls_record_digit; unfold setled_calls; rewrite He.
    reflexivity.
  - rewrite E; apply reports_error_ssize; lia.
Qed.

Lemma digit_store_records_on_fault_witness :
  attached w_shown3 = true /\
  IS_ERR_VALUE (gpiod_set_array_value_ret k_eio) = true /\
  0 <= 1 < 2 ^ 31 /\
  exists w' n,
    digit_store k_eio ["5"%char] 1 w_shown3 = Some (1, w') /\
    recorded_digit w' = Some (record_of "5"%char) /\
    calls w' = calls w_shown3 ++
      [Gpiod_set_array_value n (segment_of "5"%char)
         (gpiod_set_array_value_ret k_eio);
       Dev_err "Error setting a value in GPIOS: %d"] /\
    ~ reports_error (digit_store k_eio ["5"%char] 1 w_shown3).
Proof.
  assert (Ha : attached w_shown3 = true) by reflexivity.
  assert (He : IS_ERR_VALUE (gpiod_set_array_value_ret k_eio) = true)
    by reflexivity.
  assert (Hs : 0 <= 1 < 2 ^ 31) by lia.
  exact (conj Ha (conj He (conj Hs
           (digit_store_records_on_fault k_eio w_shown3 "5"%char [] 1
              Ha He Hs)))).
Defined.

(** C5.  A write whose first character is outside [0-9a-f] succeeds: it
    returns the full input length, reports no error, puts 8 on record and
    drives the pattern 0x7F to the pins. *)
Theorem digit_store_fallback (k : kernel) (w : world) (c : ascii)
    (rest : list ascii) (size : Z) :
  attached w = true ->
  hex_lower c = false ->
  0 <= size < 2 ^ 31 ->
  exists w' ds,
    pins w = Some ds /\
    digit_store k (c :: rest) size w = Some (size, w') /\
    ~ reports_error (digit_store k (c :: rest) size w) /\
    recorded_digit w' = Some "8"%char /\
    calls w' = calls w ++ setled_calls k (ndescs ds) 0x7F.
Proof.
  intros Ha Hc Hs.
  destruct (attached_pins w Ha) as (ds & Hp).
  destruct (pins_data w ds Hp) as (d & Hd & _).
  destruct (fallback_value c Hc) as (_ & Hr & Hm).
  pose proof (digit_store_attached k c rest size w ds Hp) as E.
  rewrite ssize_t_of_size_t_small, Hr, Hm in E by exact Hs.
  eexists; exists ds; split; [exact Hp|]; split; [exact E|].
  split; [rewrite E; apply reports_error_ssize; lia|]; split.
  - apply recorded_digit_record; simpl; congruence.
  - now rewrite calls_record_digit.
Qed.

Lemma digit_store_fallback_witness :
  attached w_attached = true /\
  hex_lower "z"%char = false /\
  0 <= 2 < 2 ^ 31 /\
  exists w' ds,
    pins w_attached = Some ds /\
    digit_store k_ok ["z"%char; "010"%char] 2 w_attached = Some (2, w') /\
    ~ reports_error (digit_store k_ok ["z"%char; "010"%char] 2 w_attached) /\
    recorded_digit w' = Some "8"%char /\
    calls w' = calls w_attached ++ setled_calls k_ok (ndescs ds) 0x7F.
Proof.
  assert (Ha : attached w_attached = true) by reflexivity.
  assert (Hc : hex_lower "z"%char = false) by reflexivity.
  assert (Hs : 0 <= 2 < 2 ^ 31) by lia.
  exact (conj Ha (conj Hc (conj Hs
           (digit_store_fallback k_ok w_attached "z"%char ["010"%char] 2
              Ha Hc Hs)))).
Defined.

(** C6.  A write of a payload of length [n >= 1] returns [n] and acts on
    the first character [c] alone: it makes the one bulk write of the
    table entry for the digit value of [c] (8 when [c] is outside
    [0-9a-f]), puts [c] (or 8) on record and changes nothing else; the
    remaining characters and the length have no effect on the world it
    leaves. *)
Theorem digit_store_first_char (k : kernel) (w : world) (c : ascii)
    (rest : list ascii) (n : Z) :
  attached w = true ->
  n = Z.of_nat (List.length (c :: rest)) ->
  n < 2 ^ 31 ->
  exists w' ds m,
    pins w = Some ds /\
    nth_error segment_table (Z.to_nat (digit_value c)) = Some m /\
    w' = record_digit (record_of c) (log (setled_calls k (ndescs ds) m) w) /\
    digit_store k (c :: rest) n w = Some (n, w') /\
    digit_store k [c] 1 w = Some (1, w') /\
    (forall rest' size',
       digit_store k (c :: rest') size' w
       = Some (ssize_t_of_size_t size', w')) /\
    recorded_digit w' = Some (if hex_lower c then c else "8"%char) /\
    calls w' = calls w ++ setled_calls k (ndescs ds) m /\
    bulk_writes (setled_calls k (ndescs ds) m) = [m].
Proof.
  intros Ha Hn Hlt.
  destruct (attached_pins w Ha) as (ds & Hp).
  destruct (pins_data w ds Hp) as (d & Hd & _).
  assert (H1 : 1 <= n) by (rewrite Hn; simpl List.length; lia).
  pose proof (digit_value_range c) as Hr.
  exists (record_digit (record_of c)
            (log (setled_calls k (ndescs ds) (segment_of c)) w)),
         ds, (segment_of c).
  split; [exact Hp|]; split.
  { rewrite <- (uint_small (digit_value c)) by lia.
    apply segment_of_lookup. }
  split; [reflexivity|]; split; [|split; [|split; [|split; [|split]]]].
  - rewrite (digit_store_attached k c rest n w ds Hp).
    rewrite ssize_t_of_size_t_small by lia; reflexivity.
  - rewrite (digit_store_attached k c [] 1 w ds Hp); reflexivity.
  - intros rest' size'; apply (digit_store_attached k c rest' size' w ds Hp).
  - apply recorded_digit_record; simpl; congruence.
  - now rewrite calls_record_digit.
  - unfold setled_calls.
    destruct (IS_ERR_VALUE (gpiod_set_array_value_ret k)); reflexivity.
Qed.

Lemma digit_store_first_char_witness :
  attached w_attached = true /\
  3 = Z.of_nat (List.length ["7"%char; "a"%char; "010"%char]) /\
  3 < 2 ^ 31 /\
  exists w' ds m,
    pins w_attached = Some ds /\
    nth_error segment_table (Z.to_nat (digit_value "7"%char)) = Some m /\
    w' = record_digit (record_of "7"%char)
           (log (setled_calls k_ok (ndescs ds) m) w_attached) /\
    digit_store k_ok ["7"%char; "a"%char; "010"%char] 3 w_attached
    = Some (3, w') /\
    digit_store k_ok ["7"%char] 1 w_attached = Some (1, w') /\
    (forall rest' size',
       digit_store k_ok ("7"%char :: rest') size' w_attached
       = Some (ssize_t_of_size_t size', w')) /\
    recorded_digit w'
    = Some (if hex_lower "7"%char then "7"%char else "8"%char) /\
    calls w' = calls w_attached ++ setled_calls k_ok (ndescs ds) m /\
    bulk_writes (setled_calls k_ok (ndescs ds) m) = [m].
Proof.
  assert (Ha : attached w_attached = true) by reflexivity.
  assert (Hn : 3 = Z.of_nat (List.length ["7"%char; "a"%char; "010"%char]))
    by reflexivity.
  assert (Hlt : 3 < 2 ^ 31) by lia.
  exact (conj Ha (conj Hn (conj Hlt
           (digit_store_first_char k_ok w_attached "7"%char
              ["a"%char; "010"%char] 3 Ha Hn Hlt)))).
Defined.

Lemma upper_lower_facts (c : ascii) :
  hex_upper c = true ->
  hex_lower (lower_of c) = true /\
  digit_value (lower_of c) = code c - 55 /\
  10 <= code c - 55 <= 15 /\
  segment_of (lower_of c) <> 0x7F.
Proof.
  destruct c as [[] [] [] [] [] [] [] []]; intros H;
    try (vm_compute in H; discriminate H);
    vm_compute; repeat split; intros; discriminate.
Qed.

(** C10.  The switch knows the lower-case letters only.  A write whose
    first character is one of [A-F] takes the default branch: 8 goes on
    record and 0x7F is driven; the lower-case letter in its place puts
    itself on record and drives the pattern of the digit value 10 to 15,
    which is not 0x7F. *)
Theorem digit_store_upper_case (k : kernel) (w : world) (c : ascii)
    (rest : list ascii) (size : Z) :
  attached w = true ->
  hex_upper c = true ->
  0 <= size < 2 ^ 31 ->
  exists ds m,
    pins w = Some ds /\
    digit_store k (c :: rest) size w =
      Some (size, record_digit "8"%char
                    (log (setled_calls k (ndescs ds) 0x7F) w)) /\
    10 <= code c - 55 <= 15 /\
    spec_bitmask (code c - 55) = Some m /\
    m <> 0x7F /\
    digit_store k (lower_of c :: rest) size w =
      Some (size, record_digit (lower_of c)
                    (log (setled_calls k (ndescs ds) m) w)).
Proof.
  intros Ha Hc Hs.
  destruct (attached_pins w Ha) as (ds & Hp).
  destruct (upper_lower_facts c Hc) as (Hl & Hv & Hr & Hm).
  destruct (fallback_value c (hex_upper_not_lower c Hc)) as (_ & Hr8 & Hm8).
  exists ds, (segment_of (lower_of c)).
  split; [exact Hp|]; split; [|split; [exact Hr|split; [|split]]].
  - rewrite (digit_store_attached k c rest size w ds Hp).
    now rewrite ssize_t_of_size_t_small, Hr8, Hm8 by exact Hs.
  - rewrite <- Hv; apply segment_of_spec.
  - exact Hm.
  - rewrite (digit_store_attached k (lower_of c) rest size w ds Hp).
    rewrite ssize_t_of_size_t_small by exact Hs.
    unfold record_of; now rewrite Hl.
Qed.

Lemma digit_store_upper_case_witness :
  attached w_attached = true /\
  hex_upper "C"%char = true /\
  0 <= 1 < 2 ^ 31 /\
  exists ds m,
    pins w_attached = Some ds /\
    digit_store k_ok ["C"%char] 1 w_attached =
      Some (1, record_digit "8"%char
                 (log (setled_calls k_ok (ndescs ds) 0x7F) w_attached)) /\
    10 <= code "C"%char - 55 <= 15 /\
    spec_bitmask (code "C"%char - 55) = Some m /\
    m <> 0x7F /\
    digit_store k_ok [lower_of "C"%char] 1 w_attached =
      Some (1, record_digit (lower_of "C"%char)
                 (log (setled_calls k_ok (ndescs ds) m) w_attached)).
Proof.
  assert (Ha : attached w_attached = true) by reflexivity.
  assert (Hc : hex_upper "C"%char = true) by reflexivity.
  assert (Hs : 0 <= 1 < 2 ^ 31) by lia.
  exact (conj Ha (conj Hc (conj Hs
           (digit_store_upper_case k_ok w_attached "C"%char [] 1
              Ha Hc Hs)))).
Defined.

(** ** The read path *)

Lemma digit_show_attached (w : world) (d : display7_data_st) (b : ascii)
    (buf : list ascii) :
  display7_data w = Some d ->
  digit_show (b :: buf) w = Some ((0, digit d :: buf), w).
Proof.
  intros Hd; unfold digit_show, bind, deref_data; now rewrite Hd.
Qed.

(** [digit_show] always announces zero bytes. *)
Lemma digit_show_count (w w' : world) (buf : list ascii)
    (out : Z * list ascii) :
  digit_show buf w = Some (out, w') -> fst out = 0 /\ attribute_read out = [].
Proof.
  unfold digit_show, bind, deref_data, store_first, ret.
  destruct (display7_data w); [|discriminate].
  destruct buf; [discriminate|]; simpl.
  intros [= <- _]; split; reflexivity.
Qed.

(** A sequence of writes on an attached instance runs to its end and
    leaves the record of its last write. *)
Lemma writes_attached (ws : list write_req) :
  forall (w : world) (ds : gpio_descs) (c0 : ascii),
    pins w = Some ds -> recorded_digit w = Some c0 ->
    exists w', writes ws w = Some (tt, w') /\
               pins w' = Some ds /\
               recorded_digit w' = Some (last_record c0 ws).
Proof.
  induction ws as [|r ws IH]; intros w ds c0 Hp Hc.
  - exists w; repeat split; assumption.
  - destruct (pins_data w ds Hp) as (d & Hd & _).
    simpl writes; unfold bind at 1.
    rewrite (digit_store_attached _ _ _ _ w ds Hp).
    apply (IH _ ds (record_of (wr_first r))).
    + now rewrite pins_record_digit, pins_log.
    + apply recorded_digit_record; simpl; congruence.
Qed.

(** A successful attach leaves an instance that owns the pins the kernel
    handed out and has the zero character on record. *)
Lemma display7_probe_success (k : kernel) (pdev : handle) (w0 w1 : world)
    (ds : gpio_descs) :
  gpiod_get_array_ret k = PTR ds ->
  display7_probe k pdev w0 = Some (0, w1) ->
  pins w1 = Some ds /\ recorded_digit w1 = Some NUL.
Proof.
  intros Hg H.
  destruct k as [kz g ar ad cc dc df gs]; simpl in Hg; subst g.
  destruct w0 as [dd pd cl sd tr]; destruct kz.
  - probe_paths H; try discriminate H;
      injection H as H0 H1; subst w1; split; reflexivity.
  - probe_paths H; discriminate H.
Qed.

(** Inside the page the round trip holds: after a write of a character of
    the alphabet, [digit_show] stores that character in the first byte. *)
Lemma digit_store_then_show_page (k : kernel) (w : world) (c b : ascii)
    (rest buf : list ascii) (size : Z) :
  attached w = true ->
  hex_lower c = true ->
  exists w',
    digit_store k (c :: rest) size w = Some (ssize_t_of_size_t size, w') /\
    digit_show (b :: buf) w' = Some ((0, c :: buf), w').
Proof.
  intros Ha Hc.
  destruct (attached_pins w Ha) as (ds & Hp).
  destruct (pins_data w ds Hp) as (d & Hd & _).
  eexists; split; [apply (digit_store_attached k c rest size w ds Hp)|].
  unfold record_of; rewrite Hc.
  unfold record_digit; simpl; rewrite Hd.
  reflexivity.
Qed.

(** C7, counterexample.  After a write of 3 that went through and a write
    of 5 whose bulk write failed, the pins last accepted the pattern of 3,
    and [digit_show] puts 5 into the page. *)
Lemma read_after_failed_write :
  ~ read_is_last_shown w_failed5 page.
Proof.
  intros H.
  destruct (H _ _ _ eq_refl) as (d & c & Hd & Hc & Hb).
  vm_compute in Hd; injection Hd as <-.
  vm_compute in Hc; injection Hc as <-.
  vm_compute in Hb; discriminate Hb.
Qed.

(** C7, amended.  On an instance attached with success and written to any
    number of times, [digit_show] puts one character into the first byte
    of the page: the character put on record by the most recent write,
    whether or not its bulk write went through, or the zero character when
    nothing was written since the attach.  It makes no kernel call, leaves
    the driver's variables as they are, and its return value is not an
    error code. *)
Theorem digit_show_reads_record (k : kernel) (pdev : handle)
    (w0 w1 : world) (ds : gpio_descs) (ws : list write_req) (b : ascii)
    (buf : list ascii) :
  gpiod_get_array_ret k = PTR ds ->
  display7_probe k pdev w0 = Some (0, w1) ->
  exists w2,
    writes ws w1 = Some (tt, w2) /\
    digit_show (b :: buf) w2 = Some ((0, last_record NUL ws :: buf), w2) /\
    ~ reports_error (digit_show (b :: buf) w2).
Proof.
  intros Hg Hp.
  destruct (display7_probe_success k pdev w0 w1 ds Hg Hp) as (Hpins & Hrec).
  destruct (writes_attached ws w1 ds NUL Hpins Hrec) as (w2 & Hw & Hp2 & Hr2).
  destruct (pins_data w2 ds Hp2) as (d & Hd & _).
  assert (E : digit_show (b :: buf) w2
              = Some ((0, last_record NUL ws :: buf), w2)).
  { rewrite (digit_show_attached w2 d b buf Hd).
    unfold recorded_digit in Hr2; rewrite Hd in Hr2.
    now injection Hr2 as ->. }
  exists w2; split; [exact Hw|]; split; [exact E|].
  rewrite E; intros (a & w' & e & Heq & He).
  injection Heq as <- _; discriminate He.
Qed.

Lemma digit_show_reads_record_witness :
  gpiod_get_array_ret k_ok = PTR disp1 /\
  display7_probe k_ok 0 boot = Some (0, w_attached) /\
  exists w2,
    writes [mk_write_req k_ok "3"%char [] 1; mk_write_req k_eio "5"%char [] 1]
      w_attached = Some (tt, w2) /\
    digit_show page w2
    = Some ((0, last_record NUL
                  [mk_write_req k_ok "3"%char [] 1;
                   mk_write_req k_eio "5"%char [] 1] :: [NUL; NUL; NUL]),
            w2) /\
    ~ reports_error (digit_show page w2).
Proof.
  assert (Hg : gpiod_get_array_ret k_ok = PTR disp1) by reflexivity.
  assert (Hp : display7_probe k_ok 0 boot = Some (0, w_attached))
    by reflexivity.
  exact (conj Hg (conj Hp
           (digit_show_reads_record k_ok 0 boot w_attached disp1
              [mk_write_req k_ok "3"%char [] 1;
               mk_write_req k_eio "5"%char [] 1]
              NUL [NUL; NUL; NUL] Hg Hp))).
Defined.

(** C4, at the failing input.  After the write of 5, [digit_show] stores
    5 in the first byte of the page and returns 0, the number of bytes it
    announces: the reader of the attribute receives no byte, so the round
    trip does not hold. *)
Theorem digit_show_after_store_is_empty :
  digit_store k_ok ["5"%char] 1 w_attached = Some (1, w_shown5) /\
  digit_show page w_shown5
  = Some ((0, ["5"%char; NUL; NUL; NUL]), w_shown5) /\
  attribute_read (0, ["5"%char; NUL; NUL; NUL]) = [] /\
  ~ round_trip k_ok w_attached "5"%char page.
Proof.
  repeat split.
  intros H.
  destruct (H _ _ eq_refl) as (out & w'' & Hs & Hr).
  destruct (digit_show_count _ _ _ _ Hs) as (_ & He).
  rewrite He in Hr; discriminate Hr.
Qed.

(** ** Attach and detach *)

Lemma account_keeps (r : resource) (held : list resource) (e : event) :
  In r held -> released e <> Some r -> In r (account held e).
Proof.
  intros Hin Hrel; unfold account.
  destruct (released e) as [r'|].
  - apply in_in_remove; [congruence | exact Hin].
  - destruct (acquired e); [apply in_or_app; now left | exact Hin].
Qed.

Lemma fold_account_keeps (r : resource) (es : list event) :
  forall held,
    In r held -> Forall (fun e => released e <> Some r) es ->
    In r (fold_left account es held).
Proof.
  induction es as [|e es IH]; intros held Hin Hall; [exact Hin|].
  inversion Hall as [|? ? He Hes]; subst.
  simpl; apply IH; [now apply account_keeps | exact Hes].
Qed.

(** Once the pins are handed out, no path of [display7_probe] gives them
    back: the calls after [gpiod_get_array] never include
    [gpiod_put_array]. *)
Lemma display7_probe_calls (k : kernel) (pdev : handle) (w0 w1 : world)
    (r : Z) (ds : gpio_descs) :
  devm_kzalloc_ok k = true ->
  gpiod_get_array_ret k = PTR ds ->
  display7_probe k pdev w0 = Some (r, w1) ->
  exists es,
    calls w1 = calls w0 ++
      Devm_kzalloc true :: Gpiod_get_array "disp1" (PTR ds) :: es /\
    Forall (fun e => released e <> Some Gpio_lines) es.
Proof.
  intros Hz Hg H.
  destruct k as [kz g ar ad cc dc df gs]; simpl in Hz, Hg; subst kz g.
  destruct w0 as [dd pd cl sd tr].
  probe_paths H; try discriminate H;
    injection H as H0 H1; subst w1; simpl calls;
    repeat rewrite <- app_assoc; simpl app;
    (eexists; split; [reflexivity|]);
    repeat (apply Forall_cons; [simpl; discriminate|]); apply Forall_nil.
Qed.

(** Whatever [display7_probe] returns after the pins were handed out, the
    pins are still claimed when it returns. *)
Lemma display7_probe_keeps_gpio_lines (k : kernel) (pdev : handle)
    (w0 w1 : world) (r : Z) (ds : gpio_descs) :
  devm_kzalloc_ok k = true ->
  gpiod_get_array_ret k = PTR ds ->
  display7_probe k pdev w0 = Some (r, w1) ->
  In Gpio_lines (claimed (calls w1)).
Proof.
  intros Hz Hg H.
  destruct (display7_probe_calls k pdev w0 w1 r ds Hz Hg H)
    as (es & Hc & Hes).
  unfold claimed; rewrite Hc, fold_left_app; simpl fold_left.
  apply fold_account_keeps; [|exact Hes].
  unfold account at 1; simpl released; simpl acquired.
  apply in_or_app; right; now left.
Qed.

(** C8, at the failing input.  The pins are acquired, then
    [alloc_chrdev_region] fails with -EBUSY: [display7_probe] returns
    -EBUSY without calling [gpiod_put_array], and the GPIO lines stay
    claimed. *)
Theorem display7_probe_leaks_gpio_lines :
  exists w,
    display7_probe k_busy 0 boot = Some (- EBUSY, w) /\
    calls w = [Devm_kzalloc true; Gpiod_get_array "disp1" (PTR disp1);
               Alloc_chrdev_region DRIVER_NAME (- EBUSY) 0;
               Dev_err "Failed to allocate device number"] /\
    claimed (calls w) = [Gpio_lines] /\
    ~ attach_all_or_nothing k_busy 0 boot.
Proof.
  eexists; split; [reflexivity|]; split; [reflexivity|].
  split; [reflexivity|].
  intros H.
  specialize (H _ _ eq_refl ltac:(discriminate)).
  discriminate H.
Qed.

(** C9.  [display7_remove] makes six kernel calls in this order: remove
    the attribute file, destroy the device, destroy the class, give back
    the device number, put the GPIO array, log a message.  The attribute
    file and the device registration go strictly before the pins, and
    the release of the pins is the last release. *)
Theorem display7_remove_order (pdev : handle) (w : world)
    (d : display7_data_st) :
  display7_data w = Some d ->
  exists w' es,
    display7_remove pdev w = Some (0, w') /\
    calls w' = calls w ++ es /\
    es = [Device_remove_file (sysfs_display7_device w);
          Device_destroy (display7_class w) (devnum d);
          Class_destroy (display7_class w);
          Unregister_chrdev_region (devnum d);
          Gpiod_put_array (descs d);
          Dev_info "Driver unloaded!"] /\
    occurs_before (Device_remove_file (sysfs_display7_device w))
                  (Gpiod_put_array (descs d)) es /\
    occurs_before (Device_destroy (display7_class w) (devnum d))
                  (Gpiod_put_array (descs d)) es /\
    last_release (Gpiod_put_array (descs d)) es /\
    count_occ resource_eq_dec
      (flat_map (fun e => match released e with
                          | Some r => [r]
                          | None => []
                          end) es) Gpio_lines = 1%nat.
Proof.
  intros Hd.
  eexists; eexists; split; [|split; [|split; [reflexivity|]]].
  - unfold display7_remove, bind, get_sysfs_display7_device,
      device_remove_file, get_display7_class, deref_data, device_destroy,
      class_destroy, unregister_chrdev_region, gpiod_put_array, dev_info,
      emit, ret; simpl.
    rewrite Hd; reflexivity.
  - simpl; repeat rewrite <- app_assoc; reflexivity.
  - split; [|split; [|split]].
    + exists [], [Device_destroy (display7_class w) (devnum d);
                  Class_destroy (display7_class w);
                  Unregister_chrdev_region (devnum d)],
             [Dev_info "Driver unloaded!"]; reflexivity.
    + exists [Device_remove_file (sysfs_display7_device w)],
             [Class_destroy (display7_class w);
              Unregister_chrdev_region (devnum d)],
             [Dev_info "Driver unloaded!"]; reflexivity.
    + exists [Device_remove_file (sysfs_display7_device w);
              Device_destroy (display7_class w) (devnum d);
              Class_destroy (display7_class w);
              Unregister_chrdev_region (devnum d)],
             [Dev_info "Driver unloaded!"].
      split; [reflexivity|]; split; [discriminate|].
      repeat constructor.
    + reflexivity.
Qed.

Lemma display7_remove_order_witness :
  display7_data w_shown3
  = Some {| devnum := 240 * 2 ^ 20; digit := "3"%char;
            descs := PTR disp1 |} /\
  exists w' es,
    display7_remove 0 w_shown3 = Some (0, w') /\
    calls w' = calls w_shown3 ++ es /\
    es = [Device_remove_file (PTR 2);
          Device_destroy (PTR 1) (240 * 2 ^ 20);
          Class_destroy (PTR 1);
          Unregister_chrdev_region (240 * 2 ^ 20);
          Gpiod_put_array (PTR disp1);
          Dev_info "Driver unloaded!"] /\
    occurs_before (Device_remove_file (PTR 2))
                  (Gpiod_put_array (PTR disp1)) es /\
    occurs_before (Device_destroy (PTR 1) (240 * 2 ^ 20))
                  (Gpiod_put_array (PTR disp1)) es /\
    last_release (Gpiod_put_array (PTR disp1)) es /\
    count_occ resource_eq_dec
      (flat_map (fun e => match released e with
                          | Some r => [r]
                          | None => []
                          end) es) Gpio_lines = 1%nat.
Proof.
  assert (Hd : display7_data w_shown3
               = Some {| devnum := 240 * 2 ^ 20; digit := "3"%char;
                         descs := PTR disp1 |}) by reflexivity.
  exact (conj Hd (display7_remove_order 0 w_shown3 _ Hd)).
Defined.

(** ** The paths of [display7_probe] *)

Lemma probe_path_nomem (k : kernel) (pdev : handle) (w : world) :
  devm_kzalloc_ok k = false ->
  display7_probe k pdev w =
  Some (- ENOMEM,
        probed w pdev None (display7_class w) (sysfs_display7_device w)
          [Devm_kzalloc false]).
Proof.
  destruct k as [kz g ar ad cc dc df gs]; simpl.
  intros ->; probe_run; probe_done.
Qed.

Lemma probe_path_nopins (k : kernel) (pdev : handle) (w : world) :
  devm_kzalloc_ok k = true ->
  IS_ERR (gpiod_get_array_ret k) = true ->
  display7_probe k pdev w =
  Some (PTR_ERR (gpiod_get_array_ret k),
        probed w pdev
          (Some {| devnum := 0; digit := NUL;
                   descs := gpiod_get_array_ret k |})
          (display7_class w) (sysfs_display7_device w)
          [Devm_kzalloc true;
           Gpiod_get_array "disp1" (gpiod_get_array_ret k);
           Dev_err "Error getting array og GPIOS: %d"]).
Proof.
  destruct k as [kz g ar ad cc dc df gs]; simpl.
  intros -> Hg; probe_run; rewrite Hg; probe_done.
Qed.

Lemma probe_path_nodevnum (k : kernel) (pdev : handle) (w : world) :
  devm_kzalloc_ok k = true ->
  IS_ERR (gpiod_get_array_ret k) = false ->
  alloc_chrdev_region_ret k <> 0 ->
  display7_probe k pdev w =
  Some (alloc_chrdev_region_ret k,
        probed w pdev
          (Some {| devnum := 0; digit := NUL;
                   descs := gpiod_get_array_ret k |})
          (display7_class w) (sysfs_display7_device w)
          [Devm_kzalloc true;
           Gpiod_get_array "disp1" (gpiod_get_array_ret k);
           Alloc_chrdev_region DRIVER_NAME (alloc_chrdev_region_ret k)
             (alloc_chrdev_region_dev k);
           Dev_err "Failed to allocate device number"]).
Proof.
  destruct k as [kz g ar ad cc dc df gs]; simpl.
  intros -> Hg Ha; probe_run; rewrite Hg.
  apply Z.eqb_neq in Ha.
  repeat (rewrite Ha; cbv beta iota delta [negb]).
  probe_done.
Qed.

Lemma probe_path_noclass (k : kernel) (pdev : handle) (w : world) :
  devm_kzalloc_ok k = true ->
  IS_ERR (gpiod_get_array_ret k) = false ->
  alloc_chrdev_region_ret k = 0 ->
  IS_ERR (class_create_ret k) = true ->
  display7_probe k pdev w =
  Some (PTR_ERR (class_create_ret k),
        probed w pdev
          (Some {| devnum := alloc_chrdev_region_dev k; digit := NUL;
                   descs := gpiod_get_array_ret k |})
          (class_create_ret k) (sysfs_display7_device w)
          [Devm_kzalloc true;
           Gpiod_get_array "disp1" (gpiod_get_array_ret k);
           Alloc_chrdev_region DRIVER_NAME 0 (alloc_chrdev_region_dev k);
           Class_create SYSCLASS_NAME (class_create_ret k);
           Unregister_chrdev_region (alloc_chrdev_region_dev k)]).
Proof.
  destruct k as [kz g ar ad cc dc df gs]; simpl.
  intros -> Hg -> Hc; probe_run; rewrite Hg.
  cbv beta iota delta [negb Z.eqb]; rewrite Hc; probe_done.
Qed.

Lemma probe_path_nodevice (k : kernel) (pdev : handle) (w : world) :
  devm_kzalloc_ok k = true ->
  IS_ERR (gpiod_get_array_ret k) = false ->
  alloc_chrdev_region_ret k = 0 ->
  IS_ERR (class_create_ret k) = false ->
  IS_ERR (device_create_ret k) = true ->
  display7_probe k pdev w =
  Some (PTR_ERR (device_create_ret k),
        probed w pdev
          (Some {| devnum := alloc_chrdev_region_dev k; digit := NUL;
                   descs := gpiod_get_array_ret k |})
          (class_create_ret k) (device_create_ret k)
          [Devm_kzalloc true;
           Gpiod_get_array "disp1" (gpiod_get_array_ret k);
           Alloc_chrdev_region DRIVER_NAME 0 (alloc_chrdev_region_dev k);
           Class_create SYSCLASS_NAME (class_create_ret k);
           Device_create (class_create_ret k) (alloc_chrdev_region_dev k)
             DISPLAY_DEVICE_NAME (device_create_ret k);
           Dev_err "Failed to create a device file!";
           Class_destroy (class_create_ret k);
           Unregister_chrdev_region (alloc_chrdev_region_dev k)]).
Proof.
  destruct k as [kz g ar ad cc dc df gs]; simpl.
  intros -> Hg -> Hc Hd; probe_run; rewrite Hg.
  cbv beta iota delta [negb Z.eqb]; rewrite Hc, Hd; probe_done.
Qed.

Lemma probe_path_nofile (k : kernel) (pdev : handle) (w : world) :
  devm_kzalloc_ok k = true ->
  IS_ERR (gpiod_get_array_ret k) = false ->
  alloc_chrdev_region_ret k = 0 ->
  IS_ERR (class_create_ret k) = false ->
  IS_ERR (device_create_ret k) = false ->
  IS_ERR_VALUE (device_create_file_ret k) = true ->
  display7_probe k pdev w =
  Some (device_create_file_ret k,
        probed w pdev
          (Some {| devnum := alloc_chrdev_region_dev k; digit := NUL;
                   descs := gpiod_get_array_ret k |})
          (class_create_ret k) (device_create_ret k)
          [Devm_kzalloc true;
           Gpiod_get_array "disp1" (gpiod_get_array_ret k);
           Alloc_chrdev_region DRIVER_NAME 0 (alloc_chrdev_region_dev k);
           Class_create SYSCLASS_NAME (class_create_ret k);
           Device_create (class_create_ret k) (alloc_chrdev_region_dev k)
             DISPLAY_DEVICE_NAME (device_create_ret k);
           Device_create_file (device_create_ret k)
             (device_create_file_ret k);
           Dev_err "Failed to create a device sub-file!";
           Device_destroy (class_create_ret k) (alloc_chrdev_region_dev k);
           Class_destroy (class_create_ret k);
           Unregister_chrdev_region (alloc_chrdev_region_dev k)]).
Proof.
  destruct k as [kz g ar ad cc dc df gs]; simpl.
  intros -> Hg -> Hc Hd Hf; probe_run; rewrite Hg.
  cbv beta iota delta [negb Z.eqb]; rewrite Hc, Hd, Hf; probe_done.
Qed.

Lemma probe_path_ok (k : kernel) (pdev : handle) (w : world) :
  devm_kzalloc_ok k = true ->
  IS_ERR (gpiod_get_array_ret k) = false ->
  alloc_chrdev_region_ret k = 0 ->
  IS_ERR (class_create_ret k) = false ->
  IS_ERR (device_create_ret k) = false ->
  IS_ERR_VALUE (device_create_file_ret k) = false ->
  display7_probe k pdev w =
  Some (device_create_file_ret k,
        probed w pdev
          (Some {| devnum := alloc_chrdev_region_dev k; digit := NUL;
                   descs := gpiod_get_array_ret k |})
          (class_create_ret k) (device_create_ret k)
          [Devm_kzalloc true;
           Gpiod_get_array "disp1" (gpiod_get_array_ret k);
           Alloc_chrdev_region DRIVER_NAME 0 (alloc_chrdev_region_dev k);
           Class_create SYSCLASS_NAME (class_create_ret k);
           Device_create (class_create_ret k) (alloc_chrdev_region_dev k)
             DISPLAY_DEVICE_NAME (device_create_ret k);
           Device_create_file (device_create_ret k)
             (device_create_file_ret k);
           Dev_info "Driver initialized."]).
Proof.
  destruct k as [kz g ar ad cc dc df gs]; simpl.
  intros -> Hg -> Hc Hd Hf; probe_run; rewrite Hg.
  cbv beta iota delta [negb Z.eqb]; rewrite Hc, Hd, Hf; probe_done.
Qed.

Lemma errno_range_IS_ERR (e : Z) :
  errno_range e = true -> IS_ERR_VALUE e = true.
Proof.
  unfold errno_range; rewrite andb_true_iff, Z.leb_le, Z.ltb_lt.
  intros [H1 H2]; apply IS_ERR_VALUE_int; unfold MAX_ERRNO in *; lia.
Qed.

Lemma errno_range_nonzero (e : Z) : errno_range e = true -> e <> 0.
Proof. intros H ->; discriminate H. Qed.

Lemma sane_int_cases (r : Z) :
  sane_int r = true ->
  (r = 0 /\ IS_ERR_VALUE r = false) \/
  (r <> 0 /\ errno_range r = true /\ IS_ERR_VALUE r = true).
Proof.
  unfold sane_int; rewrite orb_true_iff, Z.eqb_eq.
  intros [->|H]; [left; split; reflexivity | right].
  split; [now apply errno_range_nonzero|].
  split; [exact H | now apply errno_range_IS_ERR].
Qed.

Lemma sane_ptr_cases {A : Type} (p : kptr A) :
  sane_ptr p = true ->
  (is_ptr p = true /\ IS_ERR p = false) \/
  (is_ptr p = false /\ IS_ERR p = true /\ errno_range (PTR_ERR p) = true).
Proof.
  destruct p as [|e|a]; simpl; intros H; try discriminate H.
  - right; split; [reflexivity|].
    split; [now apply errno_range_IS_ERR | exact H].
  - left; split; reflexivity.
Qed.

Lemma kernel_sane_fields (k : kernel) :
  kernel_sane k = true ->
  sane_ptr (gpiod_get_array_ret k) = true /\
  sane_int (alloc_chrdev_region_ret k) = true /\
  sane_ptr (class_create_ret k) = true /\
  sane_ptr (device_create_ret k) = true /\
  sane_int (device_create_file_ret k) = true /\
  sane_int (gpiod_set_array_value_ret k) = true.
Proof.
  unfold kernel_sane; intros H.
  repeat (apply andb_prop in H; destruct H as [H ?]); auto 10.
Qed.

(** X1.  With a kernel that keeps to its conventions, [display7_probe]
    never faults, returns 0 exactly when every call of the attach
    succeeded, and returns an error number in [-MAX_ERRNO, -1] otherwise. *)
Theorem display7_probe_result (k : kernel) (pdev : handle) (w : world) :
  kernel_sane k = true ->
  exists r w1,
    display7_probe k pdev w = Some (r, w1) /\
    (r = 0 <-> all_ok k = true) /\
    (r <> 0 -> errno_range r = true).
Proof.
  intros Hs.
  destruct (kernel_sane_fields k Hs) as (Sg & Sa & Sc & Sd & Sf & _).
  unfold all_ok.
  destruct (devm_kzalloc_ok k) eqn:Hz.
  2:{ eexists; eexists; split; [apply probe_path_nomem; exact Hz|].
      split; [split; discriminate | reflexivity]. }
  destruct (sane_ptr_cases _ Sg) as [[Pg Eg]|(Pg & Eg & Rg)]; rewrite Pg.
  2:{ eexists; eexists; split; [apply probe_path_nopins; assumption|].
      split; [split; [intros H0; rewrite H0 in Rg|]; discriminate|auto]. }
  destruct (sane_int_cases _ Sa) as [[Za Ea]|(Za & Ra & Ea)].
  2:{ eexists; eexists; split; [apply probe_path_nodevnum; assumption|].
      apply Z.eqb_neq in Za; rewrite Za.
      split; [split; [intros H0; rewrite H0 in Za|]; discriminate|auto]. }
  rewrite Za.
  destruct (sane_ptr_cases _ Sc) as [[Pc Ec]|(Pc & Ec & Rc)]; rewrite Pc.
  2:{ eexists; eexists; split; [apply probe_path_noclass; assumption|].
      split; [split; [intros H0; rewrite H0 in Rc|]; discriminate|auto]. }
  destruct (sane_ptr_cases _ Sd) as [[Pd Ed]|(Pd & Ed & Rd)]; rewrite Pd.
  2:{ eexists; eexists; split; [apply probe_path_nodevice; assumption|].
      split; [split; [intros H0; rewrite H0 in Rd|]; discriminate|auto]. }
  destruct (sane_int_cases _ Sf) as [[Zf Ef]|(Zf & Rf & Ef)].
  - eexists; eexists; split; [apply probe_path_ok; assumption|].
    rewrite Zf; split; [split; reflexivity | intros H; now elim H].
  - eexists; eexists; split; [apply probe_path_nofile; assumption|].
    apply Z.eqb_neq in Zf; rewrite Zf.
    split; [split; [intros H0; rewrite H0 in Zf|]; discriminate|auto].
Qed.

Lemma display7_probe_result_witness :
  kernel_sane k_busy = true /\
  exists r w1,
    display7_probe k_busy 0 boot = Some (r, w1) /\
    (r = 0 <-> all_ok k_busy = true) /\
    (r <> 0 -> errno_range r = true).
Proof.
  assert (Hs : kernel_sane k_busy = true) by reflexivity.
  exact (conj Hs (display7_probe_result k_busy 0 boot Hs)).
Defined.

Lemma all_ok_fields (k : kernel) :
  all_ok k = true ->
  exists ds c d,
    devm_kzalloc_ok k = true /\
    gpiod_get_array_ret k = PTR ds /\
    alloc_chrdev_region_ret k = 0 /\
    class_create_ret k = PTR c /\
    device_create_ret k = PTR d /\
    device_create_file_ret k = 0.
Proof.
  unfold all_ok; intros H.
  repeat (apply andb_prop in H; destruct H as [H ?]).
  destruct (gpiod_get_array_ret k) as [| |ds]; try discriminate.
  destruct (class_create_ret k) as [| |c]; try discriminate.
  destruct (device_create_ret k) as [| |d]; try discriminate.
  exists ds, c, d; repeat split; auto; now apply Z.eqb_eq.
Qed.

Lemma claimed_app (tr es : list event) :
  claimed (tr ++ es) = fold_left account es (claimed tr).
Proof. unfold claimed; apply fold_left_app. Qed.

Lemma driver_resources_none (l : list resource) :
  Forall (fun r => ~ In r l) driver_resources <-> l = [].
Proof.
  split.
  - intros H; destruct l as [|r l]; [reflexivity|].
    rewrite Forall_forall in H.
    exfalso; apply (H r); [|now left].
    destruct r; simpl; auto 10.
  - intros ->; apply Forall_forall; intros r _ [].
Qed.

(** X2.  An attach that gets no memory, or no pins, returns -ENOMEM, or
    the error number of [gpiod_get_array].  From [devm_kzalloc] on, none
    of its calls acquires or releases GPIO lines, a device number, a
    class, a device or an attribute file: each of the five is claimed
    afterwards exactly if it was before.  It leaves no instance with a
    pin array.  (The node reference of the device-tree walk is not one of
    the five.) *)
Theorem display7_probe_early_failure (k : kernel) (pdev : handle)
    (w : world) :
  devm_kzalloc_ok k = false \/ IS_ERR (gpiod_get_array_ret k) = true ->
  exists w1 es,
    display7_probe k pdev w =
      Some (if devm_kzalloc_ok k
            then PTR_ERR (gpiod_get_array_ret k) else - ENOMEM, w1) /\
    calls w1 = calls w ++ es /\
    Forall (fun r => ~ In r (acquisitions es) /\
                     ~ In r (releases es) /\
                     (In r (claimed (calls w1)) <-> In r (claimed (calls w))))
      driver_resources /\
    pins w1 = None.
Proof.
  intros H.
  assert (F : forall es,
             acquisitions es = [] -> releases es = [] ->
             claimed (calls w ++ es) = claimed (calls w) ->
             Forall (fun r => ~ In r (acquisitions es) /\
                              ~ In r (releases es) /\
                              (In r (claimed (calls w ++ es))
                               <-> In r (claimed (calls w))))
               driver_resources).
  { intros es A R C; rewrite A, R, C.
    apply Forall_forall; intros r _.
    split; [intros []|]; split; [intros []|reflexivity]. }
  destruct (devm_kzalloc_ok k) eqn:Hz.
  - destruct H as [H|H]; [discriminate H|].
    rewrite (probe_path_nopins k pdev w Hz H).
    destruct (gpiod_get_array_ret k) as [|e|ds]; try discriminate H.
    eexists; eexists; split; [reflexivity|].
    split; [reflexivity|]; split; [|reflexivity].
    apply F; [reflexivity | reflexivity | now rewrite claimed_app].
  - rewrite (probe_path_nomem k pdev w Hz).
    eexists; eexists; split; [reflexivity|].
    split; [reflexivity|]; split; [|reflexivity].
    apply F; [reflexivity | reflexivity | now rewrite claimed_app].
Qed.

Lemma display7_probe_early_failure_witness :
  (devm_kzalloc_ok
     (mk_kernel true (ERR_PTR (- EBUSY)) 0 0 NULL NULL 0 0) = false \/
   IS_ERR (gpiod_get_array_ret
     (mk_kernel true (ERR_PTR (- EBUSY)) 0 0 NULL NULL 0 0)) = true) /\
  exists w1 es,
    display7_probe (mk_kernel true (ERR_PTR (- EBUSY)) 0 0 NULL NULL 0 0)
      0 boot =
      Some (if devm_kzalloc_ok
                 (mk_kernel true (ERR_PTR (- EBUSY)) 0 0 NULL NULL 0 0)
            then PTR_ERR (gpiod_get_array_ret
                   (mk_kernel true (ERR_PTR (- EBUSY)) 0 0 NULL NULL 0 0))
            else - ENOMEM, w1) /\
    calls w1 = calls boot ++ es /\
    Forall (fun r => ~ In r (acquisitions es) /\
                     ~ In r (releases es) /\
                     (In r (claimed (calls w1))
                      <-> In r (claimed (calls boot))))
      driver_resources /\
    pins w1 = None.
Proof.
  assert (H : devm_kzalloc_ok
                (mk_kernel true (ERR_PTR (- EBUSY)) 0 0 NULL NULL 0 0)
              = false \/
              IS_ERR (gpiod_get_array_ret
                (mk_kernel true (ERR_PTR (- EBUSY)) 0 0 NULL NULL 0 0))
              = true) by (right; reflexivity).
  exact (conj H (display7_probe_early_failure _ 0 boot H)).
Defined.

(** X3.  When an attach fails after the pins were handed out, the unwind
    labels release, in reverse order, exactly the resources acquired after
    the pins: the device, the class and the device number. *)
Theorem display7_probe_unwind (k : kernel) (pdev : handle) (w w1 : world)
    (r : Z) (ds : gpio_descs) :
  kernel_sane k = true ->
  devm_kzalloc_ok k = true ->
  gpiod_get_array_ret k = PTR ds ->
  display7_probe k pdev w = Some (r, w1) ->
  r <> 0 ->
  exists es rs,
    calls w1 = calls w ++ es /\
    acquisitions es = Gpio_lines :: rs /\
    releases es = rev rs.
Proof.
  intros Hs Hz Hg H Hr.
  destruct (kernel_sane_fields k Hs) as (_ & Sa & Sc & Sd & Sf & _).
  assert (Eg : IS_ERR (gpiod_get_array_ret k) = false) by now rewrite Hg.
  destruct (sane_int_cases _ Sa) as [[Za Ea]|(Za & Ra & Ea)].
  2:{ rewrite (probe_path_nodevnum k pdev w Hz Eg Za) in H.
      injection H as _ <-; rewrite Hg.
      apply Z.eqb_neq in Za.
      eexists; exists []; split; [reflexivity|].
      unfold acquisitions, releases; simpl; rewrite Za; split; reflexivity. }
  destruct (sane_ptr_cases _ Sc) as [[Pc Ec]|(Pc & Ec & Rc)].
  2:{ rewrite (probe_path_noclass k pdev w Hz Eg Za Ec) in H.
      injection H as _ <-; rewrite Hg.
      destruct (class_create_ret k) as [|e|c]; try discriminate.
      eexists; exists [Chrdev_region]; split; [reflexivity|].
      split; reflexivity. }
  destruct (sane_ptr_cases _ Sd) as [[Pd Ed]|(Pd & Ed & Rd)].
  2:{ rewrite (probe_path_nodevice k pdev w Hz Eg Za Ec Ed) in H.
      injection H as _ <-; rewrite Hg.
      destruct (class_create_ret k) as [|e|c]; try discriminate.
      destruct (device_create_ret k) as [|e|d]; try discriminate.
      eexists; exists [Chrdev_region; Sysfs_class]; split; [reflexivity|].
      split; reflexivity. }
  destruct (sane_int_cases _ Sf) as [[Zf Ef]|(Zf & Rf & Ef)].
  - rewrite (probe_path_ok k pdev w Hz Eg Za Ec Ed Ef) in H.
    injection H as <- _; contradiction.
  - rewrite (probe_path_nofile k pdev w Hz Eg Za Ec Ed Ef) in H.
    injection H as _ <-; rewrite Hg.
    destruct (class_create_ret k) as [|e|c]; try discriminate.
    destruct (device_create_ret k) as [|e|d]; try discriminate.
    apply Z.eqb_neq in Zf.
    eexists; exists [Chrdev_region; Sysfs_class; Sysfs_device].
    split; [reflexivity|].
    unfold acquisitions, releases; simpl; rewrite Zf; split; reflexivity.
Qed.

Lemma display7_probe_unwind_witness :
  kernel_sane k_nofile = true /\
  devm_kzalloc_ok k_nofile = true /\
  gpiod_get_array_ret k_nofile = PTR disp1 /\
  display7_probe k_nofile 0 boot
  = Some (- ENOMEM, after (display7_probe k_nofile 0) boot) /\
  - ENOMEM <> 0 /\
  exists es rs,
    calls (after (display7_probe k_nofile 0) boot) = calls boot ++ es /\
    acquisitions es = Gpio_lines :: rs /\
    releases es = rev rs.
Proof.
  assert (Hs : kernel_sane k_nofile = true) by reflexivity.
  assert (Hz : devm_kzalloc_ok k_nofile = true) by reflexivity.
  assert (Hg : gpiod_get_array_ret k_nofile = PTR disp1) by reflexivity.
  assert (H : display7_probe k_nofile 0 boot
              = Some (- ENOMEM, after (display7_probe k_nofile 0) boot))
    by (vm_compute; reflexivity).
  assert (Hr : - ENOMEM <> 0) by discriminate.
  exact (conj Hs (conj Hz (conj Hg (conj H (conj Hr
           (display7_probe_unwind k_nofile 0 boot _ _ disp1
              Hs Hz Hg H Hr)))))).
Defined.

(** X4.  When every call succeeds, [display7_probe] returns 0 and --
    whatever the driver's variables held before -- leaves an instance
    that owns the pins handed out, has the zero character on record and
    holds the device number, class and device the kernel returned; on
    the way it acquired the pins, the device number, the class, the
    device and the attribute file, in this order, and released nothing. *)
Theorem display7_probe_attaches (k : kernel) (pdev : handle) (w : world) :
  all_ok k = true ->
  exists ds w1 es,
    gpiod_get_array_ret k = PTR ds /\
    display7_probe k pdev w = Some (0, w1) /\
    display7_data w1 =
      Some {| devnum := alloc_chrdev_region_dev k; digit := NUL;
              descs := PTR ds |} /\
    parent_device w1 = Some pdev /\
    display7_class w1 = class_create_ret k /\
    sysfs_display7_device w1 = device_create_ret k /\
    calls w1 = calls w ++ es /\
    acquisitions es =
      [Gpio_lines; Chrdev_region; Sysfs_class; Sysfs_device; Attr_file] /\
    releases es = [].
Proof.
  intros H.
  destruct (all_ok_fields k H) as (ds & c & d & Hz & Hg & Ha & Hc & Hd & Hf).
  assert (E : display7_probe k pdev w = _) by
    (apply probe_path_ok; rewrite ?Hg, ?Ha, ?Hc, ?Hd, ?Hf;
     auto; reflexivity).
  rewrite Hg, Hc, Hd, Hf in E.
  exists ds; eexists; eexists; split; [exact Hg|].
  split; [exact E|]; simpl.
  rewrite Hc, Hd; repeat split.
Qed.

Lemma display7_probe_attaches_witness :
  all_ok k_ok = true /\
  exists ds w1 es,
    gpiod_get_array_ret k_ok = PTR ds /\
    display7_probe k_ok 7 w_detached = Some (0, w1) /\
    display7_data w1 =
      Some {| devnum := alloc_chrdev_region_dev k_ok; digit := NUL;
              descs := PTR ds |} /\
    parent_device w1 = Some 7 /\
    display7_class w1 = class_create_ret k_ok /\
    sysfs_display7_device w1 = device_create_ret k_ok /\
    calls w1 = calls w_detached ++ es /\
    acquisitions es =
      [Gpio_lines; Chrdev_region; Sysfs_class; Sysfs_device; Attr_file] /\
    releases es = [].
Proof.
  assert (H : all_ok k_ok = true) by reflexivity.
  exact (conj H (display7_probe_attaches k_ok 7 w_detached H)).
Defined.

(** The calls of [display7_remove] on an existing instance. *)
Lemma display7_remove_calls (pdev : handle) (w : world)
    (d : display7_data_st) :
  display7_data w = Some d ->
  display7_remove pdev w =
  Some (0, log [Device_remove_file (sysfs_display7_device w);
                Device_destroy (display7_class w) (devnum d);
                Class_destroy (display7_class w);
                Unregister_chrdev_region (devnum d);
                Gpiod_put_array (descs d);
                Dev_info "Driver unloaded!"] w).
Proof.
  destruct w as [dd pd cl sd tr]; simpl; intros ->.
  unfold display7_remove, bind, get_sysfs_display7_device,
    device_remove_file, get_display7_class, deref_data, device_destroy,
    class_destroy, unregister_chrdev_region, gpiod_put_array, dev_info,
    emit, ret, log; simpl.
  repeat rewrite <- app_assoc; reflexivity.
Qed.

(** X5.  Attach, then detach: [display7_remove] returns 0, hands back to
    the kernel the very handles the attach received, and releases the
    attribute file, the device, the class, the device number and the GPIO
    lines -- the reverse of the order in which the attach acquired them;
    none of these five is claimed afterwards.  (The node reference of the
    device-tree walk is not one of the five.) *)
Theorem attach_then_detach (k : kernel) (pdev : handle) (w : world) :
  all_ok k = true ->
  Forall (fun r => ~ In r (claimed (calls w))) driver_resources ->
  exists w1 w2 es1 es2,
    display7_probe k pdev w = Some (0, w1) /\
    display7_remove pdev w1 = Some (0, w2) /\
    calls w1 = calls w ++ es1 /\
    calls w2 = calls w1 ++ es2 /\
    es2 = [Device_remove_file (device_create_ret k);
           Device_destroy (class_create_ret k) (alloc_chrdev_region_dev k);
           Class_destroy (class_create_ret k);
           Unregister_chrdev_region (alloc_chrdev_region_dev k);
           Gpiod_put_array (gpiod_get_array_ret k);
           Dev_info "Driver unloaded!"] /\
    acquisitions es1 = driver_resources /\
    releases es2 = rev driver_resources /\
    Forall (fun r => ~ In r (claimed (calls w2))) driver_resources.
Proof.
  intros H Hc0; apply driver_resources_none in Hc0.
  destruct (all_ok_fields k H) as (ds & c & d & Hz & Hg & Ha & Hc & Hd & Hf).
  assert (E : display7_probe k pdev w = _) by
    (apply probe_path_ok; rewrite ?Hg, ?Ha, ?Hc, ?Hd, ?Hf;
     auto; reflexivity).
  rewrite Hg, Hc, Hd, Hf in E; rewrite Hg, Hc, Hd.
  match type of E with
  | _ = Some (_, probed _ _ (Some ?dd) ?cc ?dc ?es) =>
      set (es1 := es) in *; set (d0 := dd) in *;
      set (w1 := probed w pdev (Some d0) cc dc es1) in *
  end.
  pose proof (display7_remove_calls pdev w1 d0 eq_refl) as R.
  match type of R with
  | _ = Some (_, log ?es ?ww) => set (es2 := es) in *
  end.
  exists w1, (log es2 w1), es1, es2.
  split; [exact E|]; split; [exact R|].
  split; [reflexivity|]; split; [reflexivity|].
  split; [reflexivity|]; split; [reflexivity|].
  split; [reflexivity|].
  apply driver_resources_none.
  change (calls (log es2 w1)) with ((calls w ++ es1) ++ es2).
  rewrite <- app_assoc, claimed_app, Hc0; reflexivity.
Qed.

Lemma attach_then_detach_witness :
  all_ok k_ok = true /\
  Forall (fun r => ~ In r (claimed (calls boot))) driver_resources /\
  exists w1 w2 es1 es2,
    display7_probe k_ok 0 boot = Some (0, w1) /\
    display7_remove 0 w1 = Some (0, w2) /\
    calls w1 = calls boot ++ es1 /\
    calls w2 = calls w1 ++ es2 /\
    es2 = [Device_remove_file (device_create_ret k_ok);
           Device_destroy (class_create_ret k_ok)
             (alloc_chrdev_region_dev k_ok);
           Class_destroy (class_create_ret k_ok);
           Unregister_chrdev_region (alloc_chrdev_region_dev k_ok);
           Gpiod_put_array (gpiod_get_array_ret k_ok);
           Dev_info "Driver unloaded!"] /\
    acquisitions es1 = driver_resources /\
    releases es2 = rev driver_resources /\
    Forall (fun r => ~ In r (claimed (calls w2))) driver_resources.
Proof.
  assert (H : all_ok k_ok = true) by reflexivity.
  assert (Hc : Forall (fun r => ~ In r (claimed (calls boot)))
                 driver_resources)
    by (repeat (apply Forall_cons; [intros X; exact X|]); apply Forall_nil).
  exact (conj H (conj Hc (attach_then_detach k_ok 0 boot H Hc))).
Defined.

(** ** Writes, one by one and in sequence *)

Lemma hex_char_digit_value (c : ascii) :
  hex_char (digit_value c) = Some (record_of c).
Proof.
  destruct c as [[] [] [] [] [] [] [] []]; vm_compute; reflexivity.
Qed.

Lemma digit_value_record_of (c : ascii) :
  digit_value (record_of c) = digit_value c.
Proof.
  destruct c as [[] [] [] [] [] [] [] []]; vm_compute; reflexivity.
Qed.

(** No two digit values share a pattern: the pattern gives back the
    digit value. *)
Lemma segment_table_find (v : Z) :
  0 <= v <= 15 ->
  find (fun i => match nth_error segment_table i with
                 | Some m' => m' =? nth (Z.to_nat v) segment_table 0
                 | None => false
                 end) (seq 0 16) = Some (Z.to_nat v).
Proof.
  intros H.
  assert (C : v = 0 \/ v = 1 \/ v = 2 \/ v = 3 \/ v = 4 \/ v = 5 \/ v = 6
              \/ v = 7 \/ v = 8 \/ v = 9 \/ v = 10 \/ v = 11 \/ v = 12
              \/ v = 13 \/ v = 14 \/ v = 15) by lia.
  repeat (destruct C as [-> | C]; [vm_compute; reflexivity|]).
  subst; vm_compute; reflexivity.
Qed.

Lemma segment_of_record (c1 c2 : ascii) :
  segment_of c1 = segment_of c2 <-> record_of c1 = record_of c2.
Proof.
  split; intros H.
  - pose proof (segment_table_find _ (digit_value_range c1)) as F1.
    pose proof (segment_table_find _ (digit_value_range c2)) as F2.
    unfold segment_of in H; rewrite H, F2 in F1.
    injection F1 as F1.
    pose proof (digit_value_range c1) as R1.
    pose proof (digit_value_range c2) as R2.
    assert (E : digit_value c1 = digit_value c2) by lia.
    pose proof (hex_char_digit_value c1) as C1.
    rewrite E, hex_char_digit_value in C1; congruence.
  - unfold segment_of.
    now rewrite <- (digit_value_record_of c1), H, digit_value_record_of.
Qed.

Lemma segment_of_bounds (c : ascii) : 0 < segment_of c < 2 ^ 7.
Proof.
  pose proof (digit_value_range c) as H; unfold segment_of.
  assert (C : digit_value c = 0 \/ digit_value c = 1 \/ digit_value c = 2
              \/ digit_value c = 3 \/ digit_value c = 4
              \/ digit_value c = 5 \/ digit_value c = 6
              \/ digit_value c = 7 \/ digit_value c = 8
              \/ digit_value c = 9 \/ digit_value c = 10
              \/ digit_value c = 11 \/ digit_value c = 12
              \/ digit_value c = 13 \/ digit_value c = 14
              \/ digit_value c = 15) by lia.
  repeat (destruct C as [-> | C]; [vm_compute; split; reflexivity|]).
  rewrite C; vm_compute; split; reflexivity.
Qed.

Lemma last_driven_snoc (tr : list event) (n : nat) (m r : Z) :
  IS_ERR_VALUE r = false ->
  last_driven (tr ++ [Gpiod_set_array_value n m r]) = Some m.
Proof.
  intros H; induction tr as [|e tr IH]; simpl.
  - now rewrite H.
  - now rewrite IH.
Qed.

(** X6.  A write whose first character is in [0-9a-f] shows its
    hexadecimal value: the digits give 0 to 9 and the letters 10 to 15;
    the pattern driven is the table entry of that value, and the character
    itself goes on record. *)
Theorem digit_store_hex_value (k : kernel) (w : world) (c : ascii)
    (rest : list ascii) (size : Z) :
  attached w = true ->
  hex_lower c = true ->
  exists ds v m,
    pins w = Some ds /\
    v = (if code c <=? 57 then code c - 48 else code c - 87) /\
    0 <= v <= 15 /\
    hex_char v = Some c /\
    nth_error segment_table (Z.to_nat v) = Some m /\
    digit_store k (c :: rest) size w =
      Some (ssize_t_of_size_t size,
            record_digit c (log (setled_calls k (ndescs ds) m) w)).
Proof.
  intros Ha Hc.
  destruct (attached_pins w Ha) as (ds & Hp).
  assert (Hv : digit_value c
               = (if code c <=? 57 then code c - 48 else code c - 87)).
  { revert Hc; unfold hex_lower, digit_value.
    destruct (Z.leb_spec 48 (code c)), (Z.leb_spec (code c) 57),
             (Z.leb_spec 97 (code c)), (Z.leb_spec (code c) 102);
      simpl; intros; try reflexivity; try discriminate; lia. }
  assert (Hr : record_of c = c) by (unfold record_of; now rewrite Hc).
  exists ds, (digit_value c), (segment_of c).
  split; [exact Hp|]; split; [exact Hv|].
  split; [apply digit_value_range|].
  split; [now rewrite hex_char_digit_value, Hr|].
  split.
  - pose proof (digit_value_range c).
    rewrite <- (uint_small (digit_value c)) by lia.
    apply segment_of_lookup.
  - rewrite (digit_store_attached k c rest size w ds Hp); now rewrite Hr.
Qed.

Lemma digit_store_hex_value_witness :
  attached w_attached = true /\
  hex_lower "e"%char = true /\
  exists ds v m,
    pins w_attached = Some ds /\
    v = (if code "e"%char <=? 57
         then code "e"%char - 48 else code "e"%char - 87) /\
    0 <= v <= 15 /\
    hex_char v = Some "e"%char /\
    nth_error segment_table (Z.to_nat v) = Some m /\
    digit_store k_ok ["e"%char; "010"%char] 2 w_attached =
      Some (ssize_t_of_size_t 2,
            record_digit "e"%char
              (log (setled_calls k_ok (ndescs ds) m) w_attached)).
Proof.
  assert (Ha : attached w_attached = true) by reflexivity.
  assert (Hc : hex_lower "e"%char = true) by reflexivity.
  exact (conj Ha (conj Hc
           (digit_store_hex_value k_ok w_attached "e"%char ["010"%char] 2
              Ha Hc))).
Defined.

(** X7.  When the kernel accepts the bulk write, the record and the pins
    agree after the write: the pattern last driven with success is the
    pattern of a digit value whose character is the one on record. *)
Theorem digit_store_display_agrees (k : kernel) (w : world) (c : ascii)
    (rest : list ascii) (size : Z) :
  attached w = true ->
  IS_ERR_VALUE (gpiod_set_array_value_ret k) = false ->
  exists w' d c',
    digit_store k (c :: rest) size w
    = Some (ssize_t_of_size_t size, w') /\
    last_shown (calls w') = Some d /\
    hex_char d = Some c' /\
    recorded_digit w' = Some c'.
Proof.
  intros Ha He.
  destruct (attached_pins w Ha) as (ds & Hp).
  destruct (pins_data w ds Hp) as (d0 & Hd & _).
  eexists; exists (digit_value c), (record_of c).
  split; [apply (digit_store_attached k c rest size w ds Hp)|].
  split; [|split].
  - rewrite calls_record_digit; unfold setled_calls; rewrite He.
    unfold last_shown; simpl calls.
    rewrite (last_driven_snoc _ _ _ _ He).
    unfold segment_of.
    rewrite (segment_table_find _ (digit_value_range c)); simpl.
    pose proof (digit_value_range c); now rewrite Z2Nat.id by lia.
  - apply hex_char_digit_value.
  - apply recorded_digit_record; simpl; congruence.
Qed.

Lemma digit_store_display_agrees_witness :
  attached w_failed5 = true /\
  IS_ERR_VALUE (gpiod_set_array_value_ret k_ok) = false /\
  exists w' d c',
    digit_store k_ok ["Z"%char] 1 w_failed5
    = Some (ssize_t_of_size_t 1, w') /\
    last_shown (calls w') = Some d /\
    hex_char d = Some c' /\
    recorded_digit w' = Some c'.
Proof.
  assert (Ha : attached w_failed5 = true) by reflexivity.
  assert (He : IS_ERR_VALUE (gpiod_set_array_value_ret k_ok) = false)
    by reflexivity.
  exact (conj Ha (conj He
           (digit_store_display_agrees k_ok w_failed5 "Z"%char [] 1
              Ha He))).
Defined.

Lemma setled_calls_account (k : kernel) (n : nat) (m : Z)
    (held : list resource) :
  fold_left account (setled_calls k n m) held = held /\
  acquisitions (setled_calls k n m) = [] /\
  releases (setled_calls k n m) = [].
Proof.
  unfold setled_calls.
  destruct (IS_ERR_VALUE (gpiod_set_array_value_ret k));
    repeat split; reflexivity.
Qed.

Lemma bulk_writes_setled_calls (k : kernel) (n : nat) (m : Z) :
  bulk_writes (setled_calls k n m) = [m].
Proof.
  unfold setled_calls.
  destruct (IS_ERR_VALUE (gpiod_set_array_value_ret k)); reflexivity.
Qed.

Lemma bulk_writes_app (a b : list event) :
  bulk_writes (a ++ b) = bulk_writes a ++ bulk_writes b.
Proof. apply flat_map_app. Qed.

(** A run of writes: the log grows by the calls of each request, and
    nothing but the record and the log changes. *)
Lemma writes_run (ws : list write_req) :
  forall (w : world) (ds : gpio_descs),
    pins w = Some ds ->
    exists w',
      writes ws w = Some (tt, w') /\
      calls w' = calls w ++ flat_map (write_calls (ndescs ds)) ws /\
      pins w' = Some ds /\
      parent_device w' = parent_device w /\
      display7_class w' = display7_class w /\
      sysfs_display7_device w' = sysfs_display7_device w /\
      option_map devnum (display7_data w')
      = option_map devnum (display7_data w).
Proof.
  induction ws as [|r ws IH]; intros w ds Hp.
  - exists w; simpl; rewrite app_nil_r; repeat split; assumption.
  - destruct (pins_data w ds Hp) as (d & Hd & _).
    simpl writes; unfold bind at 1.
    rewrite (digit_store_attached _ _ _ _ w ds Hp).
    set (w1 := record_digit _ _).
    assert (Hp1 : pins w1 = Some ds)
      by (unfold w1; now rewrite pins_record_digit, pins_log).
    destruct (IH w1 ds Hp1) as (w' & Hw & Hc & Hp' & H1 & H2 & H3 & H4).
    exists w'; split; [exact Hw|].
    unfold w1, record_digit in Hc, H1, H2, H3, H4; simpl in Hc, H1, H2, H3, H4.
    rewrite Hd in Hc, H1, H2, H3, H4; simpl in Hc, H1, H2, H3, H4.
    rewrite Hd; simpl.
    rewrite Hc, <- app_assoc; repeat split; assumption.
Qed.

(** X8.  A sequence of writes on an attached instance makes exactly one
    bulk write per request, in the order of the requests, each with the
    pattern of the request's first character -- also when the character is
    the one already on record, and also after a bulk write that failed. *)
Theorem writes_one_bulk_write_each (ws : list write_req) (w : world) :
  attached w = true ->
  exists w' es,
    writes ws w = Some (tt, w') /\
    calls w' = calls w ++ es /\
    bulk_writes es = map (fun r => segment_of (wr_first r)) ws /\
    List.length (bulk_writes es) = List.length ws.
Proof.
  intros Ha.
  destruct (attached_pins w Ha) as (ds & Hp).
  destruct (writes_run ws w ds Hp) as (w' & Hw & Hc & _).
  exists w', (flat_map (write_calls (ndescs ds)) ws).
  split; [exact Hw|]; split; [exact Hc|].
  assert (E : bulk_writes (flat_map (write_calls (ndescs ds)) ws)
              = map (fun r => segment_of (wr_first r)) ws).
  { clear; induction ws as [|r ws IH]; [reflexivity|].
    change (flat_map (write_calls (ndescs ds)) (r :: ws))
      with (write_calls (ndescs ds) r
            ++ flat_map (write_calls (ndescs ds)) ws).
    rewrite bulk_writes_app, IH.
    unfold write_calls; now rewrite bulk_writes_setled_calls. }
  split; [exact E|]; now rewrite E, length_map.
Qed.

Lemma writes_one_bulk_write_each_witness :
  attached w_attached = true /\
  exists w' es,
    writes [mk_write_req k_ok "3"%char [] 1;
            mk_write_req k_eio "3"%char [] 1;
            mk_write_req k_ok "3"%char [] 1] w_attached = Some (tt, w') /\
    calls w' = calls w_attached ++ es /\
    bulk_writes es
    = map (fun r => segment_of (wr_first r))
        [mk_write_req k_ok "3"%char [] 1;
         mk_write_req k_eio "3"%char [] 1;
         mk_write_req k_ok "3"%char [] 1] /\
    List.length (bulk_writes es) = 3%nat.
Proof.
  assert (Ha : attached w_attached = true) by reflexivity.
  exact (conj Ha (writes_one_bulk_write_each
                    [mk_write_req k_ok "3"%char [] 1;
                     mk_write_req k_eio "3"%char [] 1;
                     mk_write_req k_ok "3"%char [] 1] w_attached Ha)).
Defined.

Lemma write_calls_account (n : nat) (ws : list write_req) :
  forall held,
    fold_left account (flat_map (write_calls n) ws) held = held /\
    acquisitions (flat_map (write_calls n) ws) = [] /\
    releases (flat_map (write_calls n) ws) = [].
Proof.
  induction ws as [|r ws IH]; intros held; [repeat split|].
  change (flat_map (write_calls n) (r :: ws))
    with (write_calls n r ++ flat_map (write_calls n) ws).
  destruct (setled_calls_account (wr_kernel r) n (segment_of (wr_first r))
              held) as (F & A & R).
  destruct (IH held) as (F' & A' & R').
  unfold acquisitions, releases in *.
  rewrite fold_left_app, !flat_map_app.
  change (write_calls n r)
    with (setled_calls (wr_kernel r) n (segment_of (wr_first r))).
  rewrite F, A, R, F', A', R'.
  repeat split.
Qed.

(** X9.  Writes change the record and nothing else: after any sequence of
    writes the instance owns the same pins, the device number, the class
    and the device are the ones of the attach, and no resource was
    acquired or released. *)
Theorem writes_keep_binding (ws : list write_req) (w : world) :
  attached w = true ->
  exists w' es,
    writes ws w = Some (tt, w') /\
    calls w' = calls w ++ es /\
    pins w' = pins w /\
    option_map devnum (display7_data w')
    = option_map devnum (display7_data w) /\
    parent_device w' = parent_device w /\
    display7_class w' = display7_class w /\
    sysfs_display7_device w' = sysfs_display7_device w /\
    acquisitions es = [] /\
    releases es = [] /\
    claimed (calls w') = claimed (calls w).
Proof.
  intros Ha.
  destruct (attached_pins w Ha) as (ds & Hp).
  destruct (writes_run ws w ds Hp)
    as (w' & Hw & Hc & Hp' & H1 & H2 & H3 & H4).
  destruct (write_calls_account (ndescs ds) ws (claimed (calls w)))
    as (F & A & R).
  exists w', (flat_map (write_calls (ndescs ds)) ws).
  split; [exact Hw|]; split; [exact Hc|].
  split; [congruence|].
  repeat (split; [assumption|]).
  now rewrite Hc, claimed_app.
Qed.

Lemma writes_keep_binding_witness :
  attached w_attached = true /\
  exists w' es,
    writes [mk_write_req k_ok "3"%char [] 1;
            mk_write_req k_eio "x"%char [] 1] w_attached = Some (tt, w') /\
    calls w' = calls w_attached ++ es /\
    pins w' = pins w_attached /\
    option_map devnum (display7_data w')
    = option_map devnum (display7_data w_attached) /\
    parent_device w' = parent_device w_attached /\
    display7_class w' = display7_class w_attached /\
    sysfs_display7_device w' = sysfs_display7_device w_attached /\
    acquisitions es = [] /\
    releases es = [] /\
    claimed (calls w') = claimed (calls w_attached).
Proof.
  assert (Ha : attached w_attached = true) by reflexivity.
  exact (conj Ha (writes_keep_binding
                    [mk_write_req k_ok "3"%char [] 1;
                     mk_write_req k_eio "x"%char [] 1] w_attached Ha)).
Defined.

(** X10.  The pins tell the record: two writes on the same instance make
    the same kernel calls exactly when they leave the same character on
    record. *)
Theorem pattern_identifies_record (k : kernel) (w : world) (c1 c2 : ascii)
    (r1 r2 : list ascii) (s1 s2 : Z) :
  attached w = true ->
  exists w1 w2,
    digit_store k (c1 :: r1) s1 w = Some (ssize_t_of_size_t s1, w1) /\
    digit_store k (c2 :: r2) s2 w = Some (ssize_t_of_size_t s2, w2) /\
    (calls w1 = calls w2 <-> recorded_digit w1 = recorded_digit w2).
Proof.
  intros Ha.
  destruct (attached_pins w Ha) as (ds & Hp).
  destruct (pins_data w ds Hp) as (d & Hd & _).
  eexists; eexists.
  split; [apply (digit_store_attached k c1 r1 s1 w ds Hp)|].
  split; [apply (digit_store_attached k c2 r2 s2 w ds Hp)|].
  rewrite !calls_record_digit.
  rewrite !recorded_digit_record by (simpl; congruence).
  simpl calls; unfold setled_calls.
  split; intros H.
  - apply app_inv_head in H; injection H as H.
    f_equal; now apply segment_of_record.
  - injection H as H; apply segment_of_record in H; now rewrite H.
Qed.

Lemma pattern_identifies_record_witness :
  attached w_attached = true /\
  exists w1 w2,
    digit_store k_ok ["G"%char] 1 w_attached
    = Some (ssize_t_of_size_t 1, w1) /\
    digit_store k_ok ["8"%char; "1"%char] 2 w_attached
    = Some (ssize_t_of_size_t 2, w2) /\
    (calls w1 = calls w2 <-> recorded_digit w1 = recorded_digit w2).
Proof.
  assert (Ha : attached w_attached = true) by reflexivity.
  exact (conj Ha (pattern_identifies_record k_ok w_attached
                    "G"%char "8"%char [] ["1"%char] 1 2 Ha)).
Defined.

(** X11.  Whatever is written, the pattern sent to the pins is not empty
    and has no bit set from bit 7 up: the decimal point is never lit. *)
Theorem patterns_leave_dp_dark (k : kernel) (w : world) (c : ascii)
    (rest : list ascii) (size : Z) :
  attached w = true ->
  exists w' n m,
    digit_store k (c :: rest) size w = Some (ssize_t_of_size_t size, w') /\
    calls w' = calls w ++ setled_calls k n m /\
    0 < m < 2 ^ 7 /\
    forall i, 7 <= i -> Z.testbit m i = false.
Proof.
  intros Ha.
  destruct (attached_pins w Ha) as (ds & Hp).
  pose proof (segment_of_bounds c) as Hb.
  eexists; exists (ndescs ds), (segment_of c).
  split; [apply (digit_store_attached k c rest size w ds Hp)|].
  split; [now rewrite calls_record_digit|].
  split; [exact Hb|].
  intros i Hi; apply Z.bits_above_log2; [lia|].
  apply Z.lt_le_trans with 7; [|exact Hi].
  apply Z.log2_lt_pow2; lia.
Qed.

Lemma patterns_leave_dp_dark_witness :
  attached w_attached = true /\
  exists w' n m,
    digit_store k_ok ["8"%char] 1 w_attached
    = Some (ssize_t_of_size_t 1, w') /\
    calls w' = calls w_attached ++ setled_calls k_ok n m /\
    0 < m < 2 ^ 7 /\
    forall i, 7 <= i -> Z.testbit m i = false.
Proof.
  assert (Ha : attached w_attached = true) by reflexivity.
  exact (conj Ha (patterns_leave_dp_dark k_ok w_attached "8"%char [] 1 Ha)).
Defined.

(** X12.  [display7_setled] tests the [int] result of the bulk write with
    [IS_ERR]: it logs its error line exactly when the result lies in
    [-MAX_ERRNO, -1]; a result of 0, a positive result and a result below
    -MAX_ERRNO log nothing.  Either way it makes the one bulk write and
    returns. *)
Theorem display7_setled_error_line (k : kernel) (w : world) (v : Z) :
  attached w = true ->
  uint v <= 15 ->
  - 2 ^ 31 <= gpiod_set_array_value_ret k < 2 ^ 31 ->
  exists w' n m tl,
    display7_setled k v w = Some (tt, w') /\
    calls w' = calls w ++
      Gpiod_set_array_value n m (gpiod_set_array_value_ret k) :: tl /\
    (tl = [Dev_err "Error setting a value in GPIOS: %d"] <->
     - MAX_ERRNO <= gpiod_set_array_value_ret k < 0) /\
    (tl = [] <-> ~ - MAX_ERRNO <= gpiod_set_array_value_ret k < 0).
Proof.
  intros Ha Hv Hr.
  destruct (attached_pins w Ha) as (ds & Hp).
  assert (H0 : 0 <= uint v) by (unfold uint; apply Z.mod_pos_bound; lia).
  destruct (nth_error segment_table (Z.to_nat (uint v))) as [m|] eqn:Hm.
  2:{ apply nth_error_None in Hm; simpl in Hm; lia. }
  pose proof (IS_ERR_VALUE_int _ Hr) as I.
  eexists; exists (ndescs ds), m; eexists.
  split; [apply (display7_setled_drives k v m w ds Hp Hv Hm)|].
  split; [reflexivity|].
  destruct (IS_ERR_VALUE (gpiod_set_array_value_ret k)); split; split;
    intros H; try reflexivity; try discriminate H.
  - now apply I.
  - elim H; now apply I.
  - apply I in H; discriminate H.
  - intros H'; apply I in H'; discriminate H'.
Qed.

Lemma display7_setled_error_line_witness :
  attached w_attached = true /\
  uint 9 <= 15 /\
  - 2 ^ 31 <= gpiod_set_array_value_ret k_eio < 2 ^ 31 /\
  exists w' n m tl,
    display7_setled k_eio 9 w_attached = Some (tt, w') /\
    calls w' = calls w_attached ++
      Gpiod_set_array_value n m (gpiod_set_array_value_ret k_eio) :: tl /\
    (tl = [Dev_err "Error setting a value in GPIOS: %d"] <->
     - MAX_ERRNO <= gpiod_set_array_value_ret k_eio < 0) /\
    (tl = [] <-> ~ - MAX_ERRNO <= gpiod_set_array_value_ret k_eio < 0).
Proof.
  assert (Ha : attached w_attached = true) by reflexivity.
  assert (Hv : uint 9 <= 15) by (vm_compute; intros X; discriminate X).
  assert (Hr : - 2 ^ 31 <= gpiod_set_array_value_ret k_eio < 2 ^ 31)
    by (vm_compute; split; [intros X; discriminate X | reflexivity]).
  exact (conj Ha (conj Hv (conj Hr
           (display7_setled_error_line k_eio w_attached 9 Ha Hv Hr)))).
Defined.
